(** * A multi-endpoint product API behind an API-gateway resolver

    Shallow embedding of [lambda_function.py]: the three endpoint handlers
    ([list_products], [get_product], [create_product]), the Python values they
    build and inspect, and the dispatch layer that routes an event to a handler
    and turns the handler's outcome into a response envelope.

    The handlers are translated from the source.  The resolver they are
    registered with ([APIGatewayRestResolver]) is imported by the source and
    is modelled from the specification's sections 3, 4 and 6.

    Conventions.  A Python [str] is a [string], each character a code
    point below 256.  A Python [float] is a [spec_float]; the handlers
    only test floats for zero and pass them on.  Logging is not modelled:
    the [logger] calls of the source change no value the handlers return. *)

From Stdlib Require Import String Ascii List ZArith Bool Lia.
From Stdlib Require Import Floats.SpecFloat.
From Stdlib Require Import DecimalString DecimalZ DecimalNat DecimalFacts.
Import ListNotations.
Open Scope string_scope.

(* ================================================================== *)
(** ** Python values *)

(** The values that [json.loads] can produce and [json.dumps] can consume.
    A [dict] keeps its items in insertion order, as Python does; lookup
    takes the first item with the key. *)
#[local] Unset Elimination Schemes.
Inductive value : Type :=
| PyNone
| PyBool (b : bool)
| PyInt (n : Z)
| PyFloat (f : spec_float)
| PyStr (s : string)
| PyList (items : list value)
| PyDict (items : list (string * value)).
#[local] Set Elimination Schemes.

(** Induction over values, with the hypothesis for every item of a list
    and of a dict. *)
Definition value_ind' (P : value -> Prop)
  (HNone : P PyNone)
  (HBool : forall b, P (PyBool b))
  (HInt : forall n, P (PyInt n))
  (HFloat : forall f, P (PyFloat f))
  (HStr : forall s, P (PyStr s))
  (HList : forall items, Forall P items -> P (PyList items))
  (HDict : forall items, Forall (fun kv => P (snd kv)) items -> P (PyDict items))
  : forall v, P v :=
  fix go (v : value) : P v :=
    match v with
    | PyNone => HNone
    | PyBool b => HBool b
    | PyInt n => HInt n
    | PyFloat f => HFloat f
    | PyStr s => HStr s
    | PyList items =>
        HList items
          ((fix all (l : list value) : Forall P l :=
              match l with
              | [] => Forall_nil P
              | x :: l' => Forall_cons x (go x) (all l')
              end) items)
    | PyDict items =>
        HDict items
          ((fix all (l : list (string * value)) : Forall (fun kv => P (snd kv)) l :=
              match l with
              | [] => Forall_nil _
              | kv :: l' => Forall_cons kv (go (snd kv)) (all l')
              end) items)
    end.

(** [type(v).__name__] *)
Definition type_name (v : value) : string :=
  match v with
  | PyNone => "NoneType"
  | PyBool _ => "bool"
  | PyInt _ => "int"
  | PyFloat _ => "float"
  | PyStr _ => "str"
  | PyList _ => "list"
  | PyDict _ => "dict"
  end.

(** [bool(v)]: what [not v] negates. *)
Definition truthy (v : value) : bool :=
  match v with
  | PyNone => false
  | PyBool b => b
  | PyInt n => negb (Z.eqb n 0)
  | PyFloat (S754_zero _) => false
  | PyFloat _ => true
  | PyStr s => negb (String.eqb s "")
  | PyList items => match items with [] => false | _ :: _ => true end
  | PyDict items => match items with [] => false | _ :: _ => true end
  end.

(** [isinstance(v, (int, float))]; [bool] is a subclass of [int]. *)
Definition isinstance_int_float (v : value) : bool :=
  match v with
  | PyBool _ | PyInt _ | PyFloat _ => true
  | _ => false
  end.

(** [d.get(key)] on a dict: the value, or [None] when the key is absent. *)
Fixpoint dict_get (d : list (string * value)) (key : string) : value :=
  match d with
  | [] => PyNone
  | (k, v) :: rest => if String.eqb k key then v else dict_get rest key
  end.

(** [needle in haystack] for strings. *)
Definition contains (haystack needle : string) : Prop :=
  exists before after, haystack = before ++ needle ++ after.

(* ================================================================== *)
(** ** Exceptions and outcomes *)

(** The exceptions that cross the model.  [BadRequestError] and
    [NotFoundError] are the two the source imports; [InternalServerError]
    is the specification's third error kind; [PyError cls msg] is any
    other Python exception of class [cls] whose [str()] is [msg]. *)
Inductive exn : Type :=
| BadRequestError (msg : string)
| NotFoundError (msg : string)
| InternalServerError (msg : string)
| PyError (cls : string) (msg : string).

(** [str(e)] *)
Definition str_exn (e : exn) : string :=
  match e with
  | BadRequestError m | NotFoundError m | InternalServerError m => m
  | PyError _ m => m
  end.

Inductive result (A : Type) : Type :=
| Return (a : A)
| Raise (e : exn).
Arguments Return {A} a.
Arguments Raise {A} e.

Definition bind {A B : Type} (r : result A) (k : A -> result B) : result B :=
  match r with
  | Return a => k a
  | Raise e => Raise e
  end.

Notation "x <- r ;; k" := (bind r (fun x => k))
  (at level 61, r at next level, right associativity).

(** [o.get(key)] on an arbitrary object: only a dict has the method. *)
Definition py_get (o : value) (key : string) : result value :=
  match o with
  | PyDict d => Return (dict_get d key)
  | _ => Raise (PyError "AttributeError"
                  ("'" ++ type_name o ++ "' object has no attribute 'get'"))
  end.

(** What a handler returns: a payload, or a [(payload, status)] tuple. *)
Inductive HandlerReturn : Type :=
| Bare (payload : value)
| WithStatus (payload : value) (status : Z).

Definition payload_of (r : HandlerReturn) : value :=
  match r with
  | Bare p => p
  | WithStatus p _ => p
  end.

(* ================================================================== *)
(** ** The operating system's random source *)

(** [os.urandom(n)] returns [n] bytes. *)
Record OsRandom : Type := {
  urandom : nat -> list Byte.byte;
  urandom_size : forall n, List.length (urandom n) = n
}.

Definition hex_digit (n : N) : ascii :=
  nth (N.to_nat n) (list_ascii_of_string "0123456789abcdef") "0"%char.

Definition hex_byte (b : Byte.byte) : string :=
  let n := Byte.to_N b in
  String (hex_digit (N.div n 16)) (String (hex_digit (N.modulo n 16)) "").

(** [bytes.hex()] *)
Fixpoint hex (bs : list Byte.byte) : string :=
  match bs with
  | [] => ""
  | b :: rest => hex_byte b ++ hex rest
  end.

(** [str(n)] for a length. *)
Definition str_nat (n : nat) : string :=
  NilEmpty.string_of_uint (Nat.to_uint n).

(** [str(n)] for an [int]. *)
Definition str_int (n : Z) : string :=
  NilZero.string_of_int (Z.to_int n).

(* ================================================================== *)
(** ** The inbound event *)

Record Event : Type := {
  httpMethod : string;
  path : string;
  headers : list (string * string);
  body : option string
}.

(* ================================================================== *)
(** ** Endpoint handlers (lines 29-108 of the source) *)

Definition product (id name : string) (price : Z) : value :=
  PyDict [("id", PyStr id); ("name", PyStr name); ("price", PyInt price)].

(** [GET /products] *)
Definition list_products : result HandlerReturn :=
  let products :=
    [ product "prod1" "Laptop" 1200;
      product "prod2" "Mouse" 25;
      product "prod3" "Keyboard" 75 ] in
  Return (Bare (PyDict [("products", PyList products)])).

Definition products_db : list (string * value) :=
  [ ("prod1", product "prod1" "Laptop" 1200);
    ("prod2", product "prod2" "Mouse" 25);
    ("prod3", product "prod3" "Keyboard" 75) ].

(** [GET /products/<product_id>] *)
Definition get_product (product_id : string) : result HandlerReturn :=
  let product := dict_get products_db product_id in
  if negb (truthy product)
  then Raise (NotFoundError ("Product with ID '" ++ product_id ++ "' not found."))
  else Return (Bare product).

Definition invalid_product_message : string :=
  "Invalid product data. 'name' and 'price' are required.".

Definition unexpected_prefix : string := "An unexpected error occurred: ".

Section CurrentEvent.

(** [app.current_event.json_body]: the resolver's accessor for the parsed
    request body.  It belongs to the imported framework, so the handler
    is stated for any accessor: it returns a value or raises. *)
Variable json_body : Event -> result value.

(** The [try] block of [create_product] (lines 77-102). *)
Definition create_product_try (os : OsRandom) (current_event : Event)
  : result HandlerReturn :=
  body <- json_body current_event ;;
  product_name <- py_get body "name" ;;
  product_price <- py_get body "price" ;;
  if negb (truthy product_name) || negb (isinstance_int_float product_price)
  then Raise (BadRequestError invalid_product_message)
  else
    let new_product_id :=
      "prod_" ++ str_nat (String.length (hex (urandom os 4))) in
    let new_product :=
      PyDict [("id", PyStr new_product_id);
              ("name", product_name);
              ("price", product_price)] in
    Return (WithStatus
              (PyDict [("message", PyStr "Product created successfully");
                       ("product", new_product)])
              201).

(** [POST /products]: the [try] block under its two [except] clauses
    (lines 103-108). *)
Definition create_product (os : OsRandom) (current_event : Event)
  : result HandlerReturn :=
  match create_product_try os current_event with
  | Return r => Return r
  | Raise (BadRequestError msg) => Raise (BadRequestError msg)
  | Raise e => Raise (BadRequestError (unexpected_prefix ++ str_exn e))
  end.

End CurrentEvent.

(** [v[key]] on a dict, [None] elsewhere. *)
Definition field (v : value) (key : string) : value :=
  match v with
  | PyDict d => dict_get d key
  | _ => PyNone
  end.

(** The payload of a successful [POST /products], with the id the
    handler in fact generates. *)
Definition created_payload (name price : value) : value :=
  PyDict [("message", PyStr "Product created successfully");
          ("product", PyDict [("id", PyStr "prod_8");
                              ("name", name);
                              ("price", price)])].

(** The id of the product a handler outcome carries, [None] when it
    carries none. *)
Definition created_id (outcome : result HandlerReturn) : value :=
  match outcome with
  | Return r => field (field (payload_of r) "product") "id"
  | Raise _ => PyNone
  end.

(** A path component: a string without a slash. *)
Definition no_slash (s : string) : Prop :=
  ~ In "/"%char (list_ascii_of_string s).

(* ================================================================== *)
(** ** Path matcher and router *)

Module Router.

(** Modelled from the spec: the path matcher and the route table of the
    imported resolver (sections 3, 4.1 and 4.2).  The source only calls
    them, through the decorators [@app.get] and [@app.post] and through
    [app.resolve]; the parameter syntax [<name>] is the source's. *)
Inductive Segment : Type :=
| Literal (text : string)
| Param (name : string).

(** Modelled from the spec: the configuration errors of registration
    (sections 3 and 4.1). *)
Inductive ConfigError : Type :=
| EmptyTemplate
| EmptySegment (template : string)
| DuplicateParam (name : string)
| DuplicateRoute (method template : string).

(** [s.split(sep)]: the pieces between separators, at least one. *)
Fixpoint split_on (sep : ascii) (s : string) : list string :=
  match s with
  | "" => [""]
  | String c rest =>
      if Ascii.eqb c sep then "" :: split_on sep rest
      else match split_on sep rest with
           | [] => [String c ""]
           | w :: ws => String c w :: ws
           end
  end.

(** The components of a path or template: the pieces between slashes,
    without the empty piece in front of the leading slash. *)
Definition components (p : string) : list string :=
  match split_on "/"%char p with
  | "" :: rest => rest
  | pieces => pieces
  end.

(** The text before a closing [>], when [s] ends with it. *)
Fixpoint param_name (s : string) : option string :=
  match s with
  | "" => None
  | String c rest =>
      match rest with
      | "" => if Ascii.eqb c ">"%char then Some "" else None
      | _ => option_map (String c) (param_name rest)
      end
  end.

Definition to_segment (piece : string) : Segment :=
  match piece with
  | String c rest =>
      if Ascii.eqb c "<"%char
      then match param_name rest with
           | Some name => Param name
           | None => Literal piece
           end
      else Literal piece
  | "" => Literal piece
  end.

Fixpoint param_names (segs : list Segment) : list string :=
  match segs with
  | [] => []
  | Literal _ :: rest => param_names rest
  | Param n :: rest => n :: param_names rest
  end.

(** The first name that occurs twice. *)
Fixpoint repeated (names : list string) : option string :=
  match names with
  | [] => None
  | n :: rest =>
      if existsb (String.eqb n) rest then Some n else repeated rest
  end.

(** Modelled from the spec: [parse(template)] of section 4.1.  It fails
    when the template is empty, has an empty segment, or names a
    parameter twice. *)
Definition parse (template : string) : ConfigError + list Segment :=
  if String.eqb template "" then inl EmptyTemplate
  else
    let pieces := components template in
    if existsb (String.eqb "") pieces then inl (EmptySegment template)
    else
      let segs := map to_segment pieces in
      match repeated (param_names segs) with
      | Some n => inl (DuplicateParam n)
      | None => inr segs
      end.

Definition Params : Type := list (string * string).

Fixpoint match_segments (segs : list Segment) (pieces : list string)
  : option Params :=
  match segs, pieces with
  | [], [] => Some []
  | Literal text :: segs', piece :: pieces' =>
      if String.eqb text piece then match_segments segs' pieces' else None
  | Param name :: segs', piece :: pieces' =>
      option_map (cons (name, piece)) (match_segments segs' pieces')
  | _, _ => None
  end.

(** Modelled from the spec: [match(segments, concretePath)] of section
    4.1: the same number of segments, literals equal, parameters bound to
    the pieces as they are. *)
Definition match_path (segs : list Segment) (concrete : string)
  : option Params :=
  match_segments segs (components concrete).

Fixpoint lookup (params : Params) (name : string) : option string :=
  match params with
  | [] => None
  | (k, v) :: rest => if String.eqb k name then Some v else lookup rest name
  end.

Section Table.

(** The handler references a table holds. *)
Context {H : Type}.

Record Route : Type := {
  method : string;
  template : list Segment;
  handler : H
}.

Definition Table : Type := list Route.

(** Modelled from the spec: the route invariant of section 3.  Two
    templates have the same shape when they have the same number of
    segments, the same kind at every position, and equal literals. *)
Fixpoint same_shape (a b : list Segment) : bool :=
  match a, b with
  | [], [] => true
  | Literal x :: a', Literal y :: b' => String.eqb x y && same_shape a' b'
  | Param _ :: a', Param _ :: b' => same_shape a' b'
  | _, _ => false
  end.

Definition clashes (m : string) (segs : list Segment) (r : Route) : bool :=
  String.eqb (method r) m && same_shape (template r) segs.

(** Modelled from the spec: [register(method, template, handler)] of
    section 4.2: parse the template, refuse a route that clashes with a
    registered one, append. *)
Definition register (table : Table) (m tpl : string) (h : H)
  : ConfigError + Table :=
  match parse tpl with
  | inl err => inl err
  | inr segs =>
      if existsb (clashes m segs) table then inl (DuplicateRoute m tpl)
      else inr (table ++ [{| method := m; template := segs; handler := h |}])%list
  end.

(** Modelled from the spec: startup registers the routes one after the
    other (section 4.2); the first configuration error stops it. *)
Fixpoint register_all (table : Table) (regs : list (string * string * H))
  : ConfigError + Table :=
  match regs with
  | [] => inr table
  | (m, tpl, h) :: rest =>
      match register table m tpl h with
      | inl err => inl err
      | inr table' => register_all table' rest
      end
  end.

Definition matches (m p : string) (r : Route) : option (H * Params) :=
  if String.eqb (method r) m
  then option_map (pair (handler r)) (match_path (template r) p)
  else None.

(** Modelled from the spec: [resolve(method, path)] of section 4.2: the
    first route of the method whose template matches the path, or
    nothing. *)
Fixpoint resolve (table : Table) (m p : string) : option (H * Params) :=
  match table with
  | [] => None
  | r :: rest =>
      match matches m p r with
      | Some found => Some found
      | None => resolve rest m p
      end
  end.

End Table.

Arguments Route H : clear implicits.
Arguments Table H : clear implicits.

End Router.

(* ================================================================== *)
(** ** JSON text of a value *)

Definition dquote : ascii := "034"%char.
Definition backslash : ascii := "092"%char.

(** How a character stands inside a JSON string: the short escapes, the
    printable ASCII characters as they are, [\u00XX] for the rest. *)
Definition escape_char (c : ascii) : string :=
  let n := N_of_ascii c in
  if N.eqb n 34 then String backslash (String dquote "")
  else if N.eqb n 92 then String backslash (String backslash "")
  else if N.eqb n 8 then String backslash "b"
  else if N.eqb n 12 then String backslash "f"
  else if N.eqb n 10 then String backslash "n"
  else if N.eqb n 13 then String backslash "r"
  else if N.eqb n 9 then String backslash "t"
  else if N.leb 32 n && N.leb n 126 then String c ""
  else String backslash
         (String "u" (String "0" (String "0"
           (String (hex_digit (N.div n 16))
              (String (hex_digit (N.modulo n 16)) ""))))).

Fixpoint escape (s : string) : string :=
  match s with
  | "" => ""
  | String c rest => escape_char c ++ escape rest
  end.

Definition quote (s : string) : string :=
  String dquote (escape s ++ String dquote "").

(** [member k v] is the JSON member ["k":v] of an object. *)
Definition member (k v : string) : string := quote k ++ ":" ++ v.

Section Serializer.

(** The text [json.dumps] writes for a float: [float.__repr__], and
    [NaN], [Infinity], [-Infinity] for the values that have no decimal
    form.  Printing a binary float is the Python runtime's business; the
    model takes it as given. *)
Variable float_repr : spec_float -> string.

(** Modelled from the spec: the response builder serializes the payload
    to JSON (section 4.5), in the compact form of the spec's examples:
    no space after a comma or a colon, items in the order the value
    holds them. *)
Fixpoint json_dumps (v : value) : string :=
  match v with
  | PyNone => "null"
  | PyBool true => "true"
  | PyBool false => "false"
  | PyInt n => str_int n
  | PyFloat f => float_repr f
  | PyStr s => quote s
  | PyList items => "[" ++ String.concat "," (map json_dumps items) ++ "]"
  | PyDict items =>
      "{" ++ String.concat ","
               (map (fun kv => quote (fst kv) ++ ":" ++ json_dumps (snd kv))
                    items)
          ++ "}"
  end.

End Serializer.

(* ================================================================== *)
(** ** Response envelope, error translator, response builder *)

Module Envelope.

Record t : Type := {
  statusCode : Z;
  headers : list (string * string);
  body : string;
  isBase64Encoded : bool
}.

End Envelope.

(** Modelled from the spec: the closed set of error kinds (section 3). *)
Inductive ErrorKind : Type := BadRequest | NotFound | Internal.

(** Modelled from the spec: the fixed mapping of section 4.4. *)
Definition status_of (k : ErrorKind) : Z :=
  match k with
  | BadRequest => 400
  | NotFound => 404
  | Internal => 500
  end.

Definition generic_internal_message : string := "Internal server error".

Definition not_found_message : string := "Not found".

(** Modelled from the spec: the top-level boundary (section 4.4).  The
    three kinds keep their message; any other failure becomes [Internal]
    with the fixed message. *)
Definition classify (e : exn) : ErrorKind * string :=
  match e with
  | BadRequestError msg => (BadRequest, msg)
  | NotFoundError msg => (NotFound, msg)
  | InternalServerError msg => (Internal, msg)
  | PyError _ _ => (Internal, generic_internal_message)
  end.

Definition error_payload (msg : string) : value :=
  PyDict [("message", PyStr msg)].

(** The handlers the source registers, as the table refers to them. *)
Inductive Handler : Type := ListProducts | GetProduct | CreateProduct.

(** Lines 29, 45 and 68: the three decorators, in source order. *)
Definition registration : Router.ConfigError + Router.Table Handler :=
  match Router.register [] "GET" "/products" ListProducts with
  | inl err => inl err
  | inr t1 =>
      match Router.register t1 "GET" "/products/<product_id>" GetProduct with
      | inl err => inl err
      | inr t2 => Router.register t2 "POST" "/products" CreateProduct
      end
  end.

Definition app : Router.Table Handler :=
  match registration with
  | inr table => table
  | inl _ => []
  end.

Section Resolver.

Variable float_repr : spec_float -> string.
Variable json_body : Event -> result value.

(** Modelled from the spec: the envelope the response builder fills
    (sections 4.5 and 6). *)
Definition envelope (status : Z) (payload : value) : Envelope.t :=
  {| Envelope.statusCode := status;
     Envelope.headers := [("Content-Type", "application/json")];
     Envelope.body := json_dumps float_repr payload;
     Envelope.isBase64Encoded := false |}.

(** Modelled from the spec: a bare payload gets status 200, a pair its
    own status (section 4.5). *)
Definition build_response (r : HandlerReturn) : Envelope.t :=
  match r with
  | Bare payload => envelope 200 payload
  | WithStatus payload status => envelope status payload
  end.

(** Modelled from the spec: the error translator's response, status by
    kind and the body [{message}] (section 4.4). *)
Definition error_response (e : exn) : Envelope.t :=
  envelope (status_of (fst (classify e))) (error_payload (snd (classify e))).

(** Modelled from the spec: the uniform handler contract (section 1).
    The resolver passes the bound path parameters as keyword arguments
    and keeps the current event for [create_product]. *)
Definition invoke (h : Handler) (params : Router.Params) (os : OsRandom)
  (event : Event) : result HandlerReturn :=
  match h with
  | ListProducts => list_products
  | GetProduct =>
      match Router.lookup params "product_id" with
      | Some product_id => get_product product_id
      | None => Raise (PyError "TypeError"
                  "get_product() missing 1 required positional argument: 'product_id'")
      end
  | CreateProduct => create_product json_body os event
  end.

(** [lambda_handler(event, context)] returns [app.resolve(event, context)]
    (line 120).  Modelled from the spec: the control flow of [resolve]
    (section 2): route, invoke the handler, build the response or
    translate the error; no route is [NotFound]. *)
Definition lambda_handler (os : OsRandom) (event : Event) : Envelope.t :=
  match Router.resolve app (httpMethod event) (path event) with
  | None => error_response (NotFoundError not_found_message)
  | Some (h, params) =>
      match invoke h params os event with
      | Return r => build_response r
      | Raise e => error_response e
      end
  end.

End Resolver.

(* ================================================================== *)
(** ** Reading JSON text *)

Module Json.

Definition is_ws (c : ascii) : bool :=
  let n := N_of_ascii c in
  N.eqb n 32 || N.eqb n 9 || N.eqb n 10 || N.eqb n 13.

Fixpoint skip_ws (s : string) : string :=
  match s with
  | "" => ""
  | String c rest => if is_ws c then skip_ws rest else s
  end.

Definition is_digit (c : ascii) : bool :=
  let n := N_of_ascii c in N.leb 48 n && N.leb n 57.

(** The characters a number is written with. *)
Definition is_number_char (c : ascii) : bool :=
  is_digit c
  || Ascii.eqb c "-" || Ascii.eqb c "+" || Ascii.eqb c "."
  || Ascii.eqb c "e" || Ascii.eqb c "E".

(** The longest prefix made of number characters, and what follows. *)
Fixpoint span_number (s : string) : string * string :=
  match s with
  | "" => ("", "")
  | String c rest =>
      if is_number_char c
      then (String c (fst (span_number rest)), snd (span_number rest))
      else ("", s)
  end.

Fixpoint all_digits (s : string) : bool :=
  match s with
  | "" => true
  | String c rest => is_digit c && all_digits rest
  end.

(** [0], or a non-zero digit followed by digits. *)
Definition is_natural_literal (s : string) : bool :=
  match s with
  | "" => false
  | String c rest =>
      if Ascii.eqb c "0" then String.eqb rest "" else is_digit c && all_digits rest
  end.

(** An integer literal: a natural literal, possibly after a minus sign. *)
Definition is_int_literal (tok : string) : bool :=
  match tok with
  | String c rest =>
      if Ascii.eqb c "-" then is_natural_literal rest else is_natural_literal tok
  | "" => false
  end.

Fixpoint all_number_chars (s : string) : bool :=
  match s with
  | "" => true
  | String c rest => is_number_char c && all_number_chars rest
  end.

(** What may follow a value inside a text: nothing, a comma, or the end
    of the enclosing array or object. *)
Definition at_delimiter (rest : string) : bool :=
  match rest with
  | "" => true
  | String c _ => Ascii.eqb c "," || Ascii.eqb c "]" || Ascii.eqb c "}"
  end.

(** The longest prefix of digits, and what follows. *)
Fixpoint span_digits (s : string) : string * string :=
  match s with
  | "" => ("", "")
  | String c rest =>
      if is_digit c
      then (String c (fst (span_digits rest)), snd (span_digits rest))
      else ("", s)
  end.

(** The parts of a JSON number: its sign, the digits of its integer
    part, the digits of its fraction (none without a fraction), and its
    exponent (zero without one). *)
Record number_parts : Type := {
  negative : bool;
  int_digits : string;
  frac_digits : string;
  exponent : Z
}.

(** The exponent a number ends with: nothing, or [e] or [E], a sign if
    any, and at least one digit. *)
Definition exponent_of (s : string) : option Z :=
  match s with
  | "" => Some 0%Z
  | String c rest =>
      if Ascii.eqb c "e" || Ascii.eqb c "E" then
        let signed :=
          match rest with
          | String sign rest' =>
              if Ascii.eqb sign "-" then (true, rest')
              else if Ascii.eqb sign "+" then (false, rest')
              else (false, rest)
          | "" => (false, rest)
          end in
        if negb (String.eqb (snd signed) "") && all_digits (snd signed) then
          match NilEmpty.uint_of_string (snd signed) with
          | Some d => Some (if fst signed then Z.opp (Z.of_uint d) else Z.of_uint d)
          | None => None
          end
        else None
      else None
  end.

(** The grammar of a JSON number: an optional minus sign, a natural
    literal, an optional fraction of a point and at least one digit, an
    optional exponent. *)
Definition number_of (tok : string) : option number_parts :=
  let signed :=
    match tok with
    | String c rest => if Ascii.eqb c "-" then (true, rest) else (false, tok)
    | "" => (false, tok)
    end in
  let int_part := fst (span_digits (snd signed)) in
  let after_int := snd (span_digits (snd signed)) in
  if is_natural_literal int_part then
    match after_int with
    | String c rest =>
        if Ascii.eqb c "." then
          let frac := fst (span_digits rest) in
          if String.eqb frac "" then None
          else match exponent_of (snd (span_digits rest)) with
               | Some e => Some {| negative := fst signed;
                                   int_digits := int_part;
                                   frac_digits := frac;
                                   exponent := e |}
               | None => None
               end
        else match exponent_of after_int with
             | Some e => Some {| negative := fst signed;
                                 int_digits := int_part;
                                 frac_digits := "";
                                 exponent := e |}
             | None => None
             end
    | "" => Some {| negative := fst signed;
                    int_digits := int_part;
                    frac_digits := "";
                    exponent := 0 |}
    end
  else None.

Definition is_json_number (tok : string) : bool :=
  match number_of tok with
  | Some _ => true
  | None => false
  end.

(** The tokens a float may be written as in JSON: number characters that
    spell a JSON number and no integer, that is a number with a fraction
    or an exponent.  [NaN], [Infinity] and [-Infinity] are none. *)
Definition is_float_token (tok : string) : bool :=
  negb (String.eqb tok "") && all_number_chars tok
  && is_json_number tok && negb (is_int_literal tok).

(** A text that starts a value: its first character is no blank and
    closes no array or object. *)
Definition starts_value (s : string) : Prop :=
  exists c tail, s = String c tail
                 /\ is_ws c = false
                 /\ Ascii.eqb c "]" = false /\ Ascii.eqb c "}" = false.

Definition hex_value (c : ascii) : option N :=
  let n := N_of_ascii c in
  if N.leb 48 n && N.leb n 57 then Some (n - 48)%N
  else if N.leb 97 n && N.leb n 102 then Some (n - 87)%N
  else if N.leb 65 n && N.leb n 70 then Some (n - 55)%N
  else None.

(** The code point of [\uXXXX], when all four are hexadecimal digits. *)
Definition code_point (a b c d : ascii) : option N :=
  match hex_value a, hex_value b, hex_value c, hex_value d with
  | Some x, Some y, Some z, Some w => Some (((x * 16 + y) * 16 + z) * 16 + w)%N
  | _, _, _, _ => None
  end.

(** The character a one-letter escape stands for. *)
Definition unescape (e : ascii) : option ascii :=
  let n := N_of_ascii e in
  if N.eqb n 34 then Some dquote
  else if N.eqb n 92 then Some backslash
  else if N.eqb n 47 then Some "/"%char
  else if N.eqb n 98 then Some "008"%char
  else if N.eqb n 102 then Some "012"%char
  else if N.eqb n 110 then Some "010"%char
  else if N.eqb n 114 then Some "013"%char
  else if N.eqb n 116 then Some "009"%char
  else None.

Definition push (c : ascii) (r : option (string * string))
  : option (string * string) :=
  match r with
  | Some (s, rest) => Some (String c s, rest)
  | None => None
  end.

(** The characters of a string literal after its opening quote, and the
    text after its closing quote.  Strings hold the code points below
    256, so an escape for a higher one is refused. *)
Fixpoint parse_chars (s : string) : option (string * string) :=
  match s with
  | "" => None
  | String c rest =>
      if Ascii.eqb c dquote then Some ("", rest)
      else if Ascii.eqb c backslash then
        match rest with
        | "" => None
        | String e rest' =>
            if Ascii.eqb e "u" then
              match rest' with
              | String h1 (String h2 (String h3 (String h4 rest''))) =>
                  match code_point h1 h2 h3 h4 with
                  | Some n =>
                      if N.ltb n 256
                      then push (ascii_of_N n) (parse_chars rest'')
                      else None
                  | None => None
                  end
              | _ => None
              end
            else
              match unescape e with
              | Some ch => push ch (parse_chars rest')
              | None => None
              end
        end
      else if N.ltb (N_of_ascii c) 32 then None
      else push c (parse_chars rest)
  end.

(** [expect word rest v]: [v] and the text after [word], when [rest]
    starts with [word]. *)
Fixpoint expect (word rest : string) (v : value) : option (value * string) :=
  match word with
  | "" => Some (v, rest)
  | String w word' =>
      match rest with
      | String c rest' => if Ascii.eqb c w then expect word' rest' v else None
      | "" => None
      end
  end.

Section Parser.

(** [float(token)]: the float a JSON number with a fraction or an
    exponent stands for.  Reading a decimal into a binary float is the
    Python runtime's business. *)
Variable float_parse : string -> option spec_float.

Definition parse_float (tok rest : string) : option (value * string) :=
  match float_parse tok with
  | Some f => Some (PyFloat f, rest)
  | None => None
  end.

Definition parse_number (s : string) : option (value * string) :=
  let tok := fst (span_number s) in
  let rest := snd (span_number s) in
  if is_int_literal tok
  then match NilZero.int_of_string tok with
       | Some d => Some (PyInt (Z.of_int d), rest)
       | None => None
       end
  else if is_json_number tok then parse_float tok rest
  else None.

(** Modelled from the spec: parsing a body as JSON (section 4.3, and the
    deserialisation of section 8's round trip); Python's [json] module is
    imported, not part of the repository.  A recursive-descent reader;
    [fuel] bounds the nesting of calls.  It reads JSON and nothing
    else: [NaN], [Infinity] and [-Infinity], which Python's reader would
    take for floats, are refused.  An object's members are kept in the
    order they are written (of two members with one key Python keeps the
    last; the text written from a dict has no such members). *)
Fixpoint parse_value (fuel : nat) (s : string) : option (value * string) :=
  match fuel with
  | O => None
  | S fuel' =>
      match skip_ws s with
      | "" => None
      | String c rest =>
          if Ascii.eqb c "n" then expect "ull" rest PyNone
          else if Ascii.eqb c "t" then expect "rue" rest (PyBool true)
          else if Ascii.eqb c "f" then expect "alse" rest (PyBool false)
          else if Ascii.eqb c dquote then
            match parse_chars rest with
            | Some (str, rest') => Some (PyStr str, rest')
            | None => None
            end
          else if Ascii.eqb c "[" then
            match skip_ws rest with
            | String c' rest' =>
                if Ascii.eqb c' "]" then Some (PyList [], rest')
                else match parse_items fuel' rest with
                     | Some (items, rest'') => Some (PyList items, rest'')
                     | None => None
                     end
            | "" => None
            end
          else if Ascii.eqb c "{" then
            match skip_ws rest with
            | String c' rest' =>
                if Ascii.eqb c' "}" then Some (PyDict [], rest')
                else match parse_members fuel' rest with
                     | Some (items, rest'') => Some (PyDict items, rest'')
                     | None => None
                     end
            | "" => None
            end
          else parse_number (String c rest)
      end
  end

with parse_items (fuel : nat) (s : string) : option (list value * string) :=
  match fuel with
  | O => None
  | S fuel' =>
      match parse_value fuel' s with
      | Some (v, rest) =>
          match skip_ws rest with
          | String c rest' =>
              if Ascii.eqb c "," then
                match parse_items fuel' rest' with
                | Some (vs, rest'') => Some (v :: vs, rest'')
                | None => None
                end
              else if Ascii.eqb c "]" then Some ([v], rest')
              else None
          | "" => None
          end
      | None => None
      end
  end

with parse_members (fuel : nat) (s : string)
  : option (list (string * value) * string) :=
  match fuel with
  | O => None
  | S fuel' =>
      match skip_ws s with
      | String q rest =>
          if Ascii.eqb q dquote then
            match parse_chars rest with
            | Some (key, rest1) =>
                match skip_ws rest1 with
                | String colon rest2 =>
                    if Ascii.eqb colon ":" then
                      match parse_value fuel' rest2 with
                      | Some (v, rest3) =>
                          match skip_ws rest3 with
                          | String c rest4 =>
                              if Ascii.eqb c "," then
                                match parse_members fuel' rest4 with
                                | Some (kvs, rest5) => Some ((key, v) :: kvs, rest5)
                                | None => None
                                end
                              else if Ascii.eqb c "}" then Some ([(key, v)], rest4)
                              else None
                          | "" => None
                          end
                      | None => None
                      end
                    else None
                | "" => None
                end
            | None => None
            end
          else None
      | "" => None
      end
  end.

(** [json.loads(text)]: one value, and nothing but blanks after it. *)
Definition json_loads (text : string) : option value :=
  match parse_value (2 * String.length text + 2) text with
  | Some (v, rest) => if String.eqb (skip_ws rest) "" then Some v else None
  | None => None
  end.

End Parser.

End Json.

(** The floats a value holds. *)
Fixpoint floats_of (v : value) : list spec_float :=
  match v with
  | PyFloat f => [f]
  | PyList items => flat_map floats_of items
  | PyDict items => flat_map (fun kv => floats_of (snd kv)) items
  | _ => []
  end.

(** A float is written as JSON when its text is a float token that reads
    back as the float. *)
Definition float_writable (float_repr : spec_float -> string)
  (float_parse : string -> option spec_float) (f : spec_float) : Prop :=
  Json.is_float_token (float_repr f) = true
  /\ float_parse (float_repr f) = Some f.

(** [reads_back v]: the text of [v], followed by what may follow a value,
    is read as [v], with fuel for twice the text's length. *)
Definition reads_back (float_repr : spec_float -> string)
  (float_parse : string -> option spec_float) (v : value) : Prop :=
  forall fuel rest,
    2 * String.length (json_dumps float_repr v) + 1 <= fuel ->
    Json.at_delimiter rest = true ->
    Json.parse_value float_parse fuel (json_dumps float_repr v ++ rest)
    = Some (v, rest).

(* ================================================================== *)
(** ** The request body accessor *)

Definition invalid_json_message : string := "Request body is not valid JSON".

(** Modelled from the spec: the lazy JSON body accessor (section 4.3),
    over a JSON reader [loads].  An absent or empty body is the empty
    mapping; malformed JSON fails with [BadRequest]. *)
Definition json_body_of (loads : string -> option value) (event : Event)
  : result value :=
  match body event with
  | None => Return (PyDict [])
  | Some text =>
      if String.eqb text "" then Return (PyDict [])
      else match loads text with
           | Some v => Return v
           | None => Raise (BadRequestError invalid_json_message)
           end
  end.

(* ================================================================== *)
(** ** Reading and printing binary64 floats *)

(** Binary64 floats, as the Python runtime reads and writes them. *)
Module Binary64.

Definition prec : Z := 53.
Definition emax : Z := 1024.

(** The binary64 float nearest to [n * 10^p], ties to even. *)
Definition float_of_decimal (neg : bool) (n : Z) (p : Z) : spec_float :=
  match n with
  | Zpos m =>
      match p with
      | Zneg q =>
          SFdiv prec emax (S754_finite neg m 0)
                (S754_finite false (Pos.pow 10 q) 0)
      | _ => binary_normalize prec emax
               (cond_Zopp neg (Zpos m * 10 ^ p)) 0 neg
      end
  | _ => S754_zero neg
  end.

(** The number a run of digits spells. *)
Definition digits_value (digits : string) : Z :=
  match NilEmpty.uint_of_string digits with
  | Some d => Z.of_uint d
  | None => 0
  end.

(** [float(token)] for a JSON number: the nearest binary64 float, an
    infinity when the number is too large. *)
Definition float_parse (tok : string) : option spec_float :=
  match Json.number_of tok with
  | Some parts =>
      Some (float_of_decimal (Json.negative parts)
              (digits_value (Json.int_digits parts ++ Json.frac_digits parts))
              (Json.exponent parts - Z.of_nat (String.length (Json.frac_digits parts))))
  | None => None
  end.

(** The same float, term for term. *)
Definition float_eqb (a b : spec_float) : bool :=
  match a, b with
  | S754_zero s, S754_zero t => Bool.eqb s t
  | S754_infinity s, S754_infinity t => Bool.eqb s t
  | S754_nan, S754_nan => true
  | S754_finite s m e, S754_finite t n f => Bool.eqb s t && Pos.eqb m n && Z.eqb e f
  | _, _ => false
  end.

(** [m * 2^e] compared with [10^d]. *)
Definition scaled_compare (m : positive) (e : Z) (d : Z) : comparison :=
  let num := (Zpos m * 2 ^ Z.max e 0 * 10 ^ Z.max (- d) 0)%Z in
  let den := (2 ^ Z.max (- e) 0 * 10 ^ Z.max d 0)%Z in
  Z.compare num den.

Fixpoint point_down (fuel : nat) (m : positive) (e : Z) (d : Z) : Z :=
  match fuel with
  | O => d
  | S fuel' =>
      match scaled_compare m e (d - 1) with
      | Lt => point_down fuel' m e (d - 1)
      | _ => d
      end
  end.

Fixpoint point_up (fuel : nat) (m : positive) (e : Z) (d : Z) : Z :=
  match fuel with
  | O => d
  | S fuel' =>
      match scaled_compare m e d with
      | Lt => d
      | _ => point_up fuel' m e (d + 1)
      end
  end.

(** [decimal_point m e]: the [d] with [10^(d-1) <= m * 2^e < 10^d];
    for a binary64 float it lies between -323 and 309. *)
Definition decimal_point (m : positive) (e : Z) : Z :=
  point_down 400 m e (point_up 400 m e 0).

(** [m * 2^e * 10^k] rounded to the nearest integer, ties to even. *)
Definition round_scaled (m : positive) (e : Z) (k : Z) : Z :=
  let num := (Zpos m * 2 ^ Z.max e 0 * 10 ^ Z.max k 0)%Z in
  let den := (2 ^ Z.max (- e) 0 * 10 ^ Z.max (- k) 0)%Z in
  let q := (num / den)%Z in
  let r := (num mod den)%Z in
  match Z.compare (2 * r) den with
  | Lt => q
  | Gt => (q + 1)%Z
  | Eq => if Z.even q then q else (q + 1)%Z
  end.

(** [m * 2^e * 10^k] rounded the other way: the neighbour of
    [round_scaled] on the other side of the value. *)
Definition other_scaled (m : positive) (e : Z) (k : Z) : Z :=
  let num := (Zpos m * 2 ^ Z.max e 0 * 10 ^ Z.max k 0)%Z in
  let den := (2 ^ Z.max (- e) 0 * 10 ^ Z.max (- k) 0)%Z in
  let q := (num / den)%Z in
  if Z.eqb (round_scaled m e k) q then (q + 1)%Z else q.

(** The shortest decimal that reads back as the float, the nearest one
    first: its digits as a number, and how many were asked for. *)
Fixpoint shortest (fuel : nat) (n : Z) (neg : bool) (m : positive) (e : Z)
  (point : Z) : Z * Z :=
  let q := round_scaled m e (n - point) in
  let q' := other_scaled m e (n - point) in
  match fuel with
  | O => (q, n)
  | S fuel' =>
      if float_eqb (float_of_decimal neg q (point - n)) (S754_finite neg m e)
      then (q, n)
      else if float_eqb (float_of_decimal neg q' (point - n)) (S754_finite neg m e)
      then (q', n)
      else shortest fuel' (n + 1) neg m e point
  end.

(** [n] zeros. *)
Fixpoint zero_digits (n : nat) : string :=
  match n with
  | O => ""
  | S n' => String "0" (zero_digits n')
  end.

(** A list of digits without its leading zeros. *)
Fixpoint strip_zeros_rev (s : list ascii) : list ascii :=
  match s with
  | c :: rest => if Ascii.eqb c "0" then strip_zeros_rev rest else s
  | [] => []
  end.

(** A run of digits without its trailing zeros. *)
Definition strip_trailing_zeros (s : string) : string :=
  string_of_list_ascii (rev (strip_zeros_rev (rev (list_ascii_of_string s)))).

(** An exponent, written with two digits at least. *)
Definition two_digits (n : Z) : string :=
  if Z.ltb n 10 then String "0" (str_int n) else str_int n.

(** The layout of [float.__repr__] for the value [0.digits * 10^point]:
    positional when [-4 < point <= 16], with [.0] after a whole number,
    and with an exponent otherwise. *)
Definition layout (digits : string) (point : Z) : string :=
  let n := Z.of_nat (String.length digits) in
  if Z.ltb (-4) point && Z.leb point 16 then
    if Z.leb point 0 then "0." ++ zero_digits (Z.to_nat (- point)) ++ digits
    else if Z.leb n point then digits ++ zero_digits (Z.to_nat (point - n)) ++ ".0"
    else substring 0 (Z.to_nat point) digits ++ "."
         ++ substring (Z.to_nat point) (Z.to_nat (n - point)) digits
  else
    let x := (point - 1)%Z in
    let mantissa :=
      match digits with
      | String d "" => String d ""
      | String d rest => String d (String "." rest)
      | "" => ""
      end in
    mantissa ++ "e" ++ (if Z.ltb x 0 then "-" else "+") ++ two_digits (Z.abs x).

(** The text [json.dumps] writes for a float: the shortest decimal that
    reads back as the float, in the layout of [float.__repr__]; [NaN],
    [Infinity] and [-Infinity] for the floats that are no numbers. *)
Definition float_repr (f : spec_float) : string :=
  match f with
  | S754_zero s => if s then "-0.0" else "0.0"
  | S754_infinity s => if s then "-Infinity" else "Infinity"
  | S754_nan => "NaN"
  | S754_finite s m e =>
      let point := decimal_point m e in
      let '(q, n) := shortest 16 1 s m e point in
      let raw := str_int q in
      (if s then "-" else "")
        ++ layout (strip_trailing_zeros raw)
                  (point - n + Z.of_nat (String.length raw))
  end.

End Binary64.

(* ================================================================== *)
(** ** A concrete platform, for running the model on sample requests *)

Module Sample.

(** The runtime's float reading and printing: binary64. *)
Definition float_repr : spec_float -> string := Binary64.float_repr.

Definition float_parse : string -> option spec_float := Binary64.float_parse.

Definition json_loads : string -> option value := Json.json_loads float_parse.

Definition json_body : Event -> result value := json_body_of json_loads.

(** A random source that always yields zero bytes. *)
Definition zeros : OsRandom :=
  {| urandom := fun n => repeat Byte.x00 n;
     urandom_size := fun n => repeat_length Byte.x00 n |}.

(** A random source that always yields [0xff] bytes. *)
Definition ones : OsRandom :=
  {| urandom := fun n => repeat Byte.xff n;
     urandom_size := fun n => repeat_length Byte.xff n |}.

Definition handle : OsRandom -> Event -> Envelope.t :=
  lambda_handler float_repr json_body.

Definition request (m p : string) (b : option string) : Event :=
  {| httpMethod := m; path := p; headers := []; body := b |}.

(** The request bodies of the sample requests. *)
Definition monitor_body : string :=
  "{" ++ member "name" (quote "Monitor") ++ "," ++ member "price" "300" ++ "}".

Definition webcam_body : string :=
  "{" ++ member "name" (quote "Webcam") ++ "," ++ member "price" "45" ++ "}".

Definition numeric_name_body : string :=
  "{" ++ member "name" "5" ++ "," ++ member "price" "300" ++ "}".

Definition boolean_price_body : string :=
  "{" ++ member "name" (quote "Monitor") ++ "," ++ member "price" "true" ++ "}".

Definition missing_name_body : string := "{" ++ member "price" "300" ++ "}".

Definition array_body : string := "[1]".

Definition float_price_body : string :=
  "{" ++ member "name" (quote "Monitor") ++ "," ++ member "price" "9.99" ++ "}".

(** A price that is a JSON number and too large for a float. *)
Definition overflow_body : string :=
  "{" ++ member "name" (quote "Monitor") ++ "," ++ member "price" "1e999" ++ "}".

Definition malformed_body : string := "{oops".

Definition post (b : string) : Event := request "POST" "/products" (Some b).

(** [str()] of the [AttributeError] that [[1].get] raises. *)
Definition list_has_no_get : string := "'list' object has no attribute 'get'".

End Sample.

(* ================================================================== *)
(** * Properties *)

(** ** Strings *)

Lemma contains_middle (before needle after : string) :
  contains (before ++ needle ++ after) needle.
Proof. exists before, after. reflexivity. Qed.

Lemma contains_suffix (before needle : string) :
  contains (before ++ needle) needle.
Proof.
  exists before, "". f_equal.
  induction needle as [|c needle IH]; simpl; [reflexivity | now rewrite <- IH].
Qed.

Lemma append_length (a b : string) :
  String.length (a ++ b) = String.length a + String.length b.
Proof. induction a as [|c a IH]; simpl; [reflexivity | now rewrite IH]. Qed.

(** ** The generated product id *)

Lemma hex_length (bs : list Byte.byte) :
  String.length (hex bs) = 2 * List.length bs.
Proof.
  induction bs as [|b bs IH]; [reflexivity|].
  cbn [hex List.length]. rewrite append_length, IH. cbn [hex_byte String.length]. lia.
Qed.

Lemma new_product_id_constant (os : OsRandom) :
  "prod_" ++ str_nat (String.length (hex (urandom os 4))) = "prod_8".
Proof. rewrite hex_length, urandom_size. reflexivity. Qed.

(** ** The router *)

Lemma split_on_no_sep (sep : ascii) (s : string) :
  ~ In sep (list_ascii_of_string s) -> Router.split_on sep s = [s].
Proof.
  induction s as [|c s IH]; intros Hno; [reflexivity|].
  cbn [Router.split_on]. destruct (Ascii.eqb_spec c sep) as [->|_].
  - exfalso. apply Hno. now left.
  - rewrite IH; [reflexivity|]. intros Hin. apply Hno. now right.
Qed.

Lemma same_shape_refl (segs : list Router.Segment) :
  Router.same_shape segs segs = true.
Proof.
  induction segs as [|[text|name] segs IH]; cbn; [reflexivity| |exact IH].
  now rewrite String.eqb_refl.
Qed.

Lemma resolve_none {H : Type} (table : Router.Table H) (m p : string) :
  Router.resolve table m p = None <->
  forall r, In r table -> Router.matches m p r = None.
Proof.
  induction table as [|r0 table IH]; cbn [Router.resolve].
  - split; [intros _ r []|reflexivity].
  - destruct (Router.matches m p r0) as [found|] eqn:E.
    + split; [discriminate|]. intros Hall.
      specialize (Hall r0 (or_introl eq_refl)). congruence.
    + rewrite IH. split.
      * intros Hall r [<-|Hin]; [exact E | now apply Hall].
      * intros Hall r Hin. apply Hall. now right.
Qed.

(** The three registrations of the source raise no configuration
    error. *)
Lemma registration_succeeds : registration = inr app.
Proof. reflexivity. Qed.

Lemma app_routes :
  app =
  [ {| Router.method := "GET";
       Router.template := [Router.Literal "products"];
       Router.handler := ListProducts |};
    {| Router.method := "GET";
       Router.template := [Router.Literal "products"; Router.Param "product_id"];
       Router.handler := GetProduct |};
    {| Router.method := "POST";
       Router.template := [Router.Literal "products"];
       Router.handler := CreateProduct |} ].
Proof. reflexivity. Qed.

Lemma resolve_product_path (product_id : string) :
  no_slash product_id ->
  Router.resolve app "GET" ("/products/" ++ product_id)
  = Some (GetProduct, [("product_id", product_id)]).
Proof.
  intros Hno. rewrite app_routes.
  cbn [Router.resolve Router.matches Router.method Router.template
       Router.handler String.eqb Ascii.eqb Bool.eqb].
  unfold Router.match_path, Router.components.
  cbn [append Router.split_on Ascii.eqb Bool.eqb].
  rewrite (split_on_no_sep "/"%char product_id Hno).
  cbn. reflexivity.
Qed.

(** A product id that is none of the stored ones is absent from the
    database. *)
Lemma products_db_miss (product_id : string) :
  ~ In product_id (map fst products_db) ->
  dict_get products_db product_id = PyNone.
Proof.
  intros Hnot. unfold products_db. cbn [dict_get].
  destruct (String.eqb_spec "prod1" product_id) as [<-|_];
    [exfalso; apply Hnot; cbn; tauto|].
  destruct (String.eqb_spec "prod2" product_id) as [<-|_];
    [exfalso; apply Hnot; cbn; tauto|].
  destruct (String.eqb_spec "prod3" product_id) as [<-|_];
    [exfalso; apply Hnot; cbn; tauto|].
  reflexivity.
Qed.

Lemma products_db_hit (product_id : string) (stored : value) :
  In (product_id, stored) products_db ->
  dict_get products_db product_id = stored /\ truthy stored = true.
Proof.
  intros [E|[E|[E|[]]]]; inversion E; subst; split; reflexivity.
Qed.

Section Properties.

Variable float_repr : spec_float -> string.
Variable json_body : Event -> result value.

#[local] Abbreviation lambda_handler := (lambda_handler float_repr json_body).
#[local] Abbreviation envelope := (envelope float_repr).
#[local] Abbreviation error_response := (error_response float_repr).
#[local] Abbreviation create_product := (create_product json_body).
#[local] Abbreviation create_product_try := (create_product_try json_body).

(** [create_product] either succeeds with status 201 or raises
    [BadRequestError]: its second [except] clause lets nothing else out. *)
Lemma create_product_outcome (os : OsRandom) (event : Event) :
  (exists name price,
      create_product os event = Return (WithStatus (created_payload name price) 201))
  \/ (exists msg, create_product os event = Raise (BadRequestError msg)).
Proof.
  unfold create_product, create_product_try.
  rewrite new_product_id_constant.
  destruct (json_body event) as [b|e]; cbn [bind].
  - destruct b; cbn [py_get bind]; try (right; eexists; reflexivity).
    destruct (negb (truthy (dict_get items "name"))
              || negb (isinstance_int_float (dict_get items "price"))).
    + right. eexists. reflexivity.
    + left. do 2 eexists. reflexivity.
  - right. destruct e; eexists; reflexivity.
Qed.

(** Every product that [create_product] creates has the id [prod_8],
    whatever the random source yields. *)
Lemma created_id_is_constant (os : OsRandom) (event : Event) (r : HandlerReturn) :
  create_product os event = Return r -> created_id (Return r) = PyStr "prod_8".
Proof.
  intros E.
  destruct (create_product_outcome os event) as [(name & price & E')|(msg & E')];
    rewrite E' in E; [|discriminate].
  injection E as <-. reflexivity.
Qed.

(** On a body that is an object, [create_product] is its validation. *)
Lemma create_product_object (os : OsRandom) (event : Event)
  (d : list (string * value)) :
  json_body event = Return (PyDict d) ->
  create_product os event =
  if negb (truthy (dict_get d "name"))
     || negb (isinstance_int_float (dict_get d "price"))
  then Raise (BadRequestError invalid_product_message)
  else Return (WithStatus
                 (created_payload (dict_get d "name") (dict_get d "price")) 201).
Proof.
  intros Hbody.
  unfold create_product, create_product_try.
  rewrite new_product_id_constant, Hbody. cbn [bind py_get].
  destruct (negb (truthy (dict_get d "name"))
            || negb (isinstance_int_float (dict_get d "price"))); reflexivity.
Qed.

(** What [create_product] does with a failure of its [try] block. *)
Lemma create_product_failure (os : OsRandom) (event : Event) (e : exn) :
  create_product_try os event = Raise e ->
  create_product os event =
  Raise (match e with
         | BadRequestError msg => BadRequestError msg
         | _ => BadRequestError (unexpected_prefix ++ str_exn e)
         end).
Proof.
  intros Htry. unfold create_product. rewrite Htry.
  destruct e; reflexivity.
Qed.

Lemma handle_post_products (os : OsRandom) (event : Event) :
  httpMethod event = "POST" -> path event = "/products" ->
  lambda_handler os event =
  match create_product os event with
  | Return r => build_response float_repr r
  | Raise e => error_response e
  end.
Proof.
  intros Hm Hp. unfold lambda_handler. rewrite Hm, Hp. reflexivity.
Qed.

Lemma handle_get_products (os : OsRandom) (event : Event) :
  httpMethod event = "GET" -> path event = "/products" ->
  lambda_handler os event =
  match list_products with
  | Return r => build_response float_repr r
  | Raise e => error_response e
  end.
Proof.
  intros Hm Hp. unfold lambda_handler. rewrite Hm, Hp. reflexivity.
Qed.

Lemma handle_get_product (os : OsRandom) (event : Event) (product_id : string) :
  httpMethod event = "GET" -> path event = "/products/" ++ product_id ->
  no_slash product_id ->
  lambda_handler os event =
  match get_product product_id with
  | Return r => build_response float_repr r
  | Raise e => error_response e
  end.
Proof.
  intros Hm Hp Hno. unfold lambda_handler.
  rewrite Hm, Hp, (resolve_product_path product_id Hno).
  cbn [invoke Router.lookup String.eqb Ascii.eqb Bool.eqb]. reflexivity.
Qed.

(* ------------------------------------------------------------------ *)
(** ** The claims *)

(** C1, as amended.  The boundary turns a failure that is none of the
    three error kinds into a 500 response with the fixed generic message,
    whatever the failure's class and text.  [create_product] lets no such
    failure reach the boundary: an exception raised inside its [try] block
    that is not a [BadRequestError] is raised again as a [BadRequestError],
    so the response to [POST /products] has status 400 and its message is
    "An unexpected error occurred: " followed by the exception's text. *)
Theorem unexpected_failure_in_create_product_is_echoed_as_400 :
  (forall cls msg,
      error_response (PyError cls msg)
      = envelope 500 (error_payload generic_internal_message))
  /\ (forall os event e,
         httpMethod event = "POST" -> path event = "/products" ->
         create_product_try os event = Raise e ->
         (forall msg, e <> BadRequestError msg) ->
         lambda_handler os event
         = envelope 400 (error_payload (unexpected_prefix ++ str_exn e))
         /\ Envelope.statusCode (lambda_handler os event) = 400%Z
         /\ contains (unexpected_prefix ++ str_exn e) (str_exn e)).
Proof.
  split; [reflexivity|].
  intros os event e Hm Hp Htry Hother.
  rewrite (handle_post_products os event Hm Hp),
          (create_product_failure os event e Htry).
  assert (Hresp :
            error_response
              (match e with
               | BadRequestError msg => BadRequestError msg
               | _ => BadRequestError (unexpected_prefix ++ str_exn e)
               end)
            = envelope 400 (error_payload (unexpected_prefix ++ str_exn e))).
  { destruct e; try reflexivity. now destruct (Hother msg). }
  rewrite Hresp. repeat split. apply contains_suffix.
Qed.

(** C3, as amended.  For [POST /products] with a body that is a JSON
    object: when ["name"] is missing or falsy, or ["price"] is not an
    [int], [float] or [bool], the response is 400 with the fixed message
    "Invalid product data. 'name' and 'price' are required."; otherwise
    the response is 201 with [{message, product}].  In particular a
    non-empty string name with an integer or float price yields 201.  A
    parsed body that is not an object gets 400 as well. *)
Theorem create_product_validation :
  forall os event,
    httpMethod event = "POST" -> path event = "/products" ->
    (forall d,
        json_body event = Return (PyDict d) ->
        (truthy (dict_get d "name") = false
         \/ isinstance_int_float (dict_get d "price") = false ->
         lambda_handler os event
         = envelope 400 (error_payload invalid_product_message))
        /\ (truthy (dict_get d "name") = true ->
            isinstance_int_float (dict_get d "price") = true ->
            lambda_handler os event
            = envelope 201
                (created_payload (dict_get d "name") (dict_get d "price")))
        /\ (forall s price,
               dict_get d "name" = PyStr s -> s <> "" ->
               dict_get d "price" = price ->
               (exists n, price = PyInt n) \/ (exists f, price = PyFloat f) ->
               lambda_handler os event
               = envelope 201 (created_payload (PyStr s) price)))
    /\ (forall v,
           json_body event = Return v ->
           (forall d, v <> PyDict d) ->
           Envelope.statusCode (lambda_handler os event) = 400%Z).
Proof.
  intros os event Hm Hp. split.
  - intros d Hbody.
    rewrite (handle_post_products os event Hm Hp),
            (create_product_object os event d Hbody).
    split; [|split].
    + intros [Hname|Hprice].
      * rewrite Hname. reflexivity.
      * rewrite Hprice, orb_true_r. reflexivity.
    + intros Hname Hprice. rewrite Hname, Hprice. reflexivity.
    + intros s price Hname Hs Hprice Hnum. rewrite Hname, Hprice.
      assert (Hne : truthy (PyStr s) = true).
      { cbn. now destruct (String.eqb_spec s "") as [->|_]. }
      assert (Hnum' : isinstance_int_float price = true).
      { destruct Hnum as [[n ->]|[f ->]]; reflexivity. }
      rewrite Hne, Hnum'. reflexivity.
  - intros v Hbody Hnot.
    rewrite (handle_post_products os event Hm Hp).
    destruct (create_product_outcome os event) as [(name & price & E)|(msg & E)].
    + exfalso. revert E. unfold create_product, create_product_try.
      rewrite Hbody. destruct v; cbn; try discriminate.
      now destruct (Hnot items).
    + rewrite E. reflexivity.
Qed.

(** Whatever the body accessor raises, [POST /products] answers 400
    with a message that carries the failure's text. *)
Lemma accessor_failure_is_bad_request (os : OsRandom) (event : Event) (e : exn) :
  httpMethod event = "POST" -> path event = "/products" ->
  json_body event = Raise e ->
  exists msg,
    lambda_handler os event = envelope 400 (error_payload msg)
    /\ contains msg (str_exn e).
Proof.
  intros Hm Hp Hbody.
  assert (Htry : create_product_try os event = Raise e).
  { unfold create_product_try. rewrite Hbody. reflexivity. }
  rewrite (handle_post_products os event Hm Hp),
          (create_product_failure os event e Htry).
  destruct e as [msg|msg|msg|cls msg]; cbn [str_exn].
  - exists msg. split; [reflexivity|]. exists "", "". cbn.
    clear. induction msg as [|c msg IH]; cbn; [reflexivity | now rewrite <- IH].
  - eexists. split; [reflexivity | apply contains_suffix].
  - eexists. split; [reflexivity | apply contains_suffix].
  - eexists. split; [reflexivity | apply contains_suffix].
Qed.


(** C6.  [GET /products] answers 200 with an object whose key
    [products] holds exactly three objects, in order, each with the
    fields [id], [name] and [price]. *)
Theorem list_products_response :
  forall os event,
    httpMethod event = "GET" -> path event = "/products" ->
    exists products,
      lambda_handler os event
      = envelope 200 (PyDict [("products", PyList products)])
      /\ Envelope.statusCode (lambda_handler os event) = 200%Z
      /\ List.length products = 3
      /\ Forall (fun p => exists id name price,
                     p = PyDict [("id", id); ("name", name); ("price", price)])
                products
      /\ map (fun p => match p with
                       | PyDict d => dict_get d "id"
                       | _ => PyNone
                       end) products
         = [PyStr "prod1"; PyStr "prod2"; PyStr "prod3"].
Proof.
  intros os event Hm Hp. rewrite (handle_get_products os event Hm Hp).
  eexists. split; [reflexivity|]. split; [reflexivity|].
  split; [reflexivity|]. split; [|reflexivity].
  repeat constructor; do 3 eexists; reflexivity.
Qed.

(** C7.  A request that resolves to no route is answered 404, also when
    its path matches a registered template under another method; and no
    request is ever answered 405. *)
Theorem unmatched_request_is_not_found :
  forall os event,
    (Router.resolve app (httpMethod event) (path event) = None ->
     lambda_handler os event = envelope 404 (error_payload not_found_message))
    /\ (forall r params,
           In r app ->
           Router.match_path (Router.template r) (path event) = Some params ->
           (forall r', In r' app ->
                       Router.method r' = httpMethod event ->
                       Router.match_path (Router.template r') (path event) = None) ->
           Envelope.statusCode (lambda_handler os event) = 404%Z)
    /\ Envelope.statusCode (lambda_handler os event) <> 405%Z.
Proof.
  intros os event.
  assert (Hnone : Router.resolve app (httpMethod event) (path event) = None ->
                  lambda_handler os event
                  = envelope 404 (error_payload not_found_message)).
  { intros E. unfold lambda_handler. rewrite E. reflexivity. }
  split; [exact Hnone|]. split.
  - intros r params _ _ Hother. rewrite Hnone; [reflexivity|].
    apply resolve_none. intros r' Hin. unfold Router.matches.
    destruct (String.eqb_spec (Router.method r') (httpMethod event)) as [E|_];
      [|reflexivity].
    rewrite (Hother r' Hin E). reflexivity.
  - unfold lambda_handler.
    destruct (Router.resolve app (httpMethod event) (path event))
      as [[h params]|]; [|discriminate].
    destruct h; cbn [invoke].
    + discriminate.
    + destruct (Router.lookup params "product_id") as [product_id|];
        [|discriminate].
      unfold get_product.
      destruct (negb (truthy (dict_get products_db product_id))); discriminate.
    + destruct (create_product_outcome os event)
        as [(name & price & E)|(msg & E)]; rewrite E; discriminate.
Qed.

(** C10.  A [POST /products] body with a non-empty string name and a
    boolean price passes the [isinstance] check: the response is 201 and
    the created product's price is that boolean. *)
Theorem boolean_price_is_accepted :
  forall os event d s b,
    httpMethod event = "POST" -> path event = "/products" ->
    json_body event = Return (PyDict d) ->
    dict_get d "name" = PyStr s -> s <> "" ->
    dict_get d "price" = PyBool b ->
    isinstance_int_float (PyBool b) = true
    /\ lambda_handler os event
       = envelope 201 (created_payload (PyStr s) (PyBool b))
    /\ Envelope.statusCode (lambda_handler os event) = 201%Z.
Proof.
  intros os event d s b Hm Hp Hbody Hname Hs Hprice.
  rewrite (handle_post_products os event Hm Hp),
          (create_product_object os event d Hbody), Hname, Hprice.
  assert (Hne : truthy (PyStr s) = true).
  { cbn. now destruct (String.eqb_spec s "") as [->|_]. }
  rewrite Hne. repeat split.
Qed.

End Properties.

(** C4.  A [POST /products] request whose body does not parse is
    answered 400, never 500, with a message that identifies the failure:
    whatever the body accessor raises, the message carries its text; and
    with the accessor of section 4.3 over any JSON reader, a non-empty
    body the reader refuses gets the message of [invalid_json_message]. *)
Theorem unparsable_body_is_bad_request :
  forall float_repr os event,
    httpMethod event = "POST" -> path event = "/products" ->
    (forall json_body e,
        json_body event = Raise e ->
        Envelope.statusCode (lambda_handler float_repr json_body os event) = 400%Z
        /\ Envelope.statusCode (lambda_handler float_repr json_body os event)
           <> 500%Z
        /\ exists msg,
             lambda_handler float_repr json_body os event
             = envelope float_repr 400 (error_payload msg)
             /\ contains msg (str_exn e))
    /\ (forall loads text,
           body event = Some text -> text <> "" -> loads text = None ->
           lambda_handler float_repr (json_body_of loads) os event
           = envelope float_repr 400 (error_payload invalid_json_message)).
Proof.
  intros float_repr os event Hm Hp. split.
  - intros json_body e Hbody.
    destruct (accessor_failure_is_bad_request
                float_repr json_body os event e Hm Hp Hbody) as (msg & E & Hin).
    rewrite E. split; [reflexivity|]. split; [discriminate|].
    exists msg. split; [reflexivity | exact Hin].
  - intros loads text Hbody Hne Hloads.
    assert (Hraise : json_body_of loads event
                     = Raise (BadRequestError invalid_json_message)).
    { unfold json_body_of. rewrite Hbody, Hloads.
      now destruct (String.eqb_spec text "") as [->|_]. }
    unfold lambda_handler. rewrite Hm, Hp. cbn [Router.resolve app].
    change (Router.resolve app "POST" "/products")
      with (Some (CreateProduct, @nil (string * string))).
    cbn [invoke]. unfold create_product, create_product_try.
    rewrite Hraise. reflexivity.
Qed.

(** *** Registration only appends *)

(** A table that holds a route of the method with the parsed template
    refuses the pair. *)
Lemma register_refuses_held_pair
  (H : Type) (table : Router.Table H) (m tpl : string)
  (segs : list Router.Segment) (r : Router.Route H) (h : H) :
  Router.parse tpl = inr segs ->
  In r table -> Router.method r = m -> Router.template r = segs ->
  Router.register table m tpl h = inl (Router.DuplicateRoute m tpl).
Proof.
  intros Hparse Hin Hm Ht. unfold Router.register. rewrite Hparse.
  assert (E : existsb (Router.clashes m segs) table = true).
  { apply existsb_exists. exists r. split; [assumption|].
    unfold Router.clashes. rewrite Hm, Ht, String.eqb_refl, same_shape_refl.
    reflexivity. }
  now rewrite E.
Qed.

Lemma register_appends
  (H : Type) (table table' : Router.Table H) (m tpl : string) (h : H) :
  Router.register table m tpl h = inr table' ->
  exists segs,
    Router.parse tpl = inr segs
    /\ table' = (table ++ [{| Router.method := m;
                              Router.template := segs;
                              Router.handler := h |}])%list.
Proof.
  unfold Router.register.
  destruct (Router.parse tpl) as [err|segs]; [discriminate|].
  destruct (existsb (Router.clashes m segs) table); [discriminate|].
  intros E. injection E as <-. now exists segs.
Qed.

Lemma register_all_appends
  (H : Type) (regs : list (string * string * H)) (table table' : Router.Table H) :
  Router.register_all table regs = inr table' ->
  exists added, table' = (table ++ added)%list.
Proof.
  revert table. induction regs as [|[[m tpl] h] regs IH]; intros table; cbn.
  - intros E. injection E as <-. exists []. now rewrite List.app_nil_r.
  - destruct (Router.register table m tpl h) as [err|t1] eqn:Hreg; [discriminate|].
    intros Hall. destruct (register_appends _ _ _ _ _ _ Hreg) as (segs & _ & ->).
    destruct (IH _ Hall) as (added & ->).
    rewrite <- app_assoc. now eexists.
Qed.

(** The routes added behind a table do not change what it resolves. *)
Lemma resolve_app
  (H : Type) (table added : Router.Table H) (m p : string)
  (found : H * Router.Params) :
  Router.resolve table m p = Some found ->
  Router.resolve (table ++ added)%list m p = Some found.
Proof.
  induction table as [|r table IH]; cbn; [discriminate|].
  destruct (Router.matches m p r); [trivial | exact IH].
Qed.

(** The three decorators of the source, as one startup sequence. *)
Lemma registration_is_register_all :
  registration
  = Router.register_all []
      [("GET", "/products", ListProducts);
       ("GET", "/products/<product_id>", GetProduct);
       ("POST", "/products", CreateProduct)].
Proof. reflexivity. Qed.

(** C8.  Registering a (method, template) pair that the table holds,
    wherever in the table, fails with the configuration error
    [DuplicateRoute] at registration.  A registration that succeeds only
    appends its route: the routes registered before stay, and every
    request they resolved resolves to the same handler and parameters.
    So after a pair is registered, and whatever is registered after it,
    the same pair is refused and nothing registered in between shadows
    it. *)
Theorem duplicate_registration_is_refused :
  forall (H : Type) (table : Router.Table H) (m tpl : string) (h : H),
    (forall segs r,
        Router.parse tpl = inr segs ->
        In r table -> Router.method r = m -> Router.template r = segs ->
        Router.register table m tpl h = inl (Router.DuplicateRoute m tpl))
    /\ (forall table',
          Router.register table m tpl h = inr table' ->
          (exists segs,
              Router.parse tpl = inr segs
              /\ table' = (table ++ [{| Router.method := m;
                                        Router.template := segs;
                                        Router.handler := h |}])%list)
          /\ (forall m' p found,
                 Router.resolve table m' p = Some found ->
                 Router.resolve table' m' p = Some found)
          /\ forall regs table'',
               Router.register_all table' regs = inr table'' ->
               (forall h',
                   Router.register table'' m tpl h'
                   = inl (Router.DuplicateRoute m tpl))
               /\ (exists added, table'' = (table' ++ added)%list)
               /\ forall m' p found,
                    Router.resolve table' m' p = Some found ->
                    Router.resolve table'' m' p = Some found).
Proof.
  intros H table m tpl h. split.
  - intros segs r. apply register_refuses_held_pair.
  - intros table' Hreg.
    destruct (register_appends _ _ _ _ _ _ Hreg) as (segs & Hparse & ->).
    split; [now exists segs|]. split.
    + intros m' p found. apply resolve_app.
    + intros regs table'' Hall.
      destruct (register_all_appends _ _ _ _ Hall) as (added & ->).
      split; [|split].
      * intros h'.
        apply (register_refuses_held_pair
                 H _ m tpl segs
                 {| Router.method := m; Router.template := segs;
                    Router.handler := h |});
          [assumption | | reflexivity | reflexivity].
        apply in_or_app. left. apply in_or_app. right. now left.
      * now exists added.
      * intros m' p found. apply resolve_app.
Qed.


(* ================================================================== *)
(** ** JSON text reads back as the value it was written from *)

(** *** Strings *)

Lemma string_append_assoc (a b c : string) : (a ++ b) ++ c = a ++ (b ++ c).
Proof. induction a as [|x a IH]; cbn; [reflexivity | now rewrite IH]. Qed.

(** The reader undoes the escape of every character. *)
Lemma escape_char_parse (c : ascii) (tail : string) :
  Json.parse_chars (escape_char c ++ tail) = Json.push c (Json.parse_chars tail).
Proof.
  destruct c as [b0 b1 b2 b3 b4 b5 b6 b7].
  destruct b0, b1, b2, b3, b4, b5, b6, b7; reflexivity.
Qed.

Lemma parse_chars_escape (s rest : string) :
  Json.parse_chars (escape s ++ String dquote rest) = Some (s, rest).
Proof.
  induction s as [|c s IH]; [reflexivity|].
  cbn [escape]. rewrite string_append_assoc, escape_char_parse, IH. reflexivity.
Qed.

Lemma parse_chars_quote (s rest : string) :
  exists tail, quote s ++ rest = String dquote tail
               /\ Json.parse_chars tail = Some (s, rest).
Proof.
  exists (escape s ++ String dquote rest). split.
  - unfold quote. cbn. now rewrite string_append_assoc.
  - apply parse_chars_escape.
Qed.

(** *** Integers *)

Lemma span_number_token (tok rest : string) :
  Json.all_number_chars tok = true -> Json.at_delimiter rest = true ->
  Json.span_number (tok ++ rest) = (tok, rest).
Proof.
  intros Htok Hrest. induction tok as [|c tok IH].
  - cbn. destruct rest as [|c rest]; [reflexivity|].
    cbn in Hrest. cbn [Json.span_number].
    assert (E : Json.is_number_char c = false).
    { destruct (Ascii.eqb_spec c ",") as [->|_]; [reflexivity|].
      destruct (Ascii.eqb_spec c "]") as [->|_]; [reflexivity|].
      destruct (Ascii.eqb_spec c "}") as [->|_]; [reflexivity|discriminate]. }
    now rewrite E.
  - cbn in Htok. apply andb_true_iff in Htok as [Hc Htok].
    cbn [append Json.span_number]. rewrite Hc, (IH Htok). reflexivity.
Qed.

Lemma digits_are_digits (d : Decimal.uint) :
  Json.all_digits (NilEmpty.string_of_uint d) = true.
Proof. induction d; cbn; auto. Qed.

Lemma all_digits_number_chars (s : string) :
  Json.all_digits s = true -> Json.all_number_chars s = true.
Proof.
  induction s as [|c s IH]; [reflexivity|]. cbn.
  intros H. apply andb_true_iff in H as [Hc Hs].
  unfold Json.is_number_char. rewrite Hc, (IH Hs). reflexivity.
Qed.

(** The decimal digits of a positive number start with a non-zero
    digit. *)
Lemma pos_to_uint_head (p : positive) :
  Pos.to_uint p <> Decimal.Nil /\ forall d, Pos.to_uint p <> Decimal.D0 d.
Proof.
  assert (Hnorm : Decimal.unorm (Pos.to_uint p) = Pos.to_uint p).
  { change (Pos.to_uint p) with (N.to_uint (Npos p)).
    rewrite <- (DecimalN.Unsigned.of_to (Npos p)) at 2.
    symmetry. apply DecimalN.Unsigned.to_of. }
  assert (Hnz : Decimal.nzhead (Pos.to_uint p) <> Decimal.Nil).
  { intros E. apply unorm_0 in E. rewrite Hnorm in E.
    pose proof (DecimalPos.Unsigned.of_to p) as Hof. rewrite E in Hof.
    discriminate. }
  rewrite (unorm_nzhead _ Hnz) in Hnorm. split.
  - intros E. rewrite E in Hnz. now apply Hnz.
  - intros d E. rewrite <- Hnorm in E. exact (nzhead_nonzero _ _ E).
Qed.

Lemma natural_literal_pos (p : positive) :
  Json.is_natural_literal (NilZero.string_of_uint (Pos.to_uint p)) = true.
Proof.
  destruct (pos_to_uint_head p) as [Hnil Hzero].
  pose proof (digits_are_digits (Pos.to_uint p)) as Hd.
  destruct (Pos.to_uint p) as [|d|d|d|d|d|d|d|d|d|d];
    try (now destruct Hnil); try (now destruct (Hzero d)); exact Hd.
Qed.

Lemma str_int_literal (n : Z) : Json.is_int_literal (str_int n) = true.
Proof.
  destruct n as [|p|p]; [reflexivity| |].
  - unfold str_int. cbn [Z.to_int NilZero.string_of_int].
    pose proof (natural_literal_pos p) as H.
    destruct (NilZero.string_of_uint (Pos.to_uint p)) as [|c s] eqn:E;
      [discriminate|].
    cbn [Json.is_int_literal].
    destruct (Ascii.eqb_spec c "-") as [->|_]; [discriminate|exact H].
  - unfold str_int. cbn [Z.to_int NilZero.string_of_int Json.is_int_literal].
    cbn. apply natural_literal_pos.
Qed.

Lemma str_int_number_chars (n : Z) : Json.all_number_chars (str_int n) = true.
Proof.
  assert (H : forall d, Json.all_number_chars (NilZero.string_of_uint d) = true).
  { intros d. destruct d; try reflexivity;
      apply all_digits_number_chars; apply (digits_are_digits (_ d)). }
  destruct n as [|p|p]; [reflexivity| apply H |].
  unfold str_int. cbn [Z.to_int NilZero.string_of_int Json.all_number_chars].
  rewrite H. reflexivity.
Qed.

Lemma int_of_str_int (n : Z) :
  NilZero.int_of_string (str_int n) = Some (Z.to_int n).
Proof.
  unfold str_int. apply NilZero.isi.
  - destruct n as [|p|p]; cbn; try discriminate.
    intros E. injection E as E. now destruct (pos_to_uint_head p).
  - destruct n as [|p|p]; cbn; try discriminate.
    intros E. injection E as E. now destruct (pos_to_uint_head p).
Qed.

(** *** Values *)

Section RoundTrip.

(** The runtime's float printing and reading.  The round trip of a
    value rests on the round trip of the floats it holds
    ([float_writable]). *)
Variable float_repr : spec_float -> string.
Variable float_parse : string -> option spec_float.

Lemma parse_number_int (n : Z) (rest : string) :
  Json.at_delimiter rest = true ->
  Json.parse_number float_parse (str_int n ++ rest) = Some (PyInt n, rest).
Proof.
  intros Hrest. unfold Json.parse_number.
  rewrite (span_number_token _ _ (str_int_number_chars n) Hrest). cbn [fst snd].
  rewrite str_int_literal, int_of_str_int, DecimalZ.of_to. reflexivity.
Qed.


#[local] Abbreviation dumps := (json_dumps float_repr).
#[local] Abbreviation parse_value := (Json.parse_value float_parse).
#[local] Abbreviation parse_items := (Json.parse_items float_parse).
#[local] Abbreviation parse_members := (Json.parse_members float_parse).
#[local] Abbreviation reads_back := (reads_back float_repr float_parse).
#[local] Abbreviation starts_value := Json.starts_value.
#[local] Abbreviation float_writable := (float_writable float_repr float_parse).

Lemma dumps_list (items : list value) :
  dumps (PyList items) = "[" ++ String.concat "," (map dumps items) ++ "]".
Proof. reflexivity. Qed.

Lemma dumps_dict (items : list (string * value)) :
  dumps (PyDict items)
  = "{" ++ String.concat ","
             (map (fun kv => quote (fst kv) ++ ":" ++ dumps (snd kv)) items)
        ++ "}".
Proof. reflexivity. Qed.

Lemma number_char_starts (c : ascii) (tail : string) :
  Json.is_number_char c = true -> starts_value (String c tail).
Proof.
  intros H. exists c, tail. split; [reflexivity|].
  destruct c as [b0 b1 b2 b3 b4 b5 b6 b7].
  destruct b0, b1, b2, b3, b4, b5, b6, b7; try discriminate H; repeat split.
Qed.

Lemma float_token_starts (tok : string) :
  Json.is_float_token tok = true -> starts_value tok.
Proof.
  unfold Json.is_float_token. intros H.
  apply andb_true_iff in H as [H _]. apply andb_true_iff in H as [H _].
  apply andb_true_iff in H as [Hne Hall].
  destruct tok as [|c tok]; [discriminate|].
  cbn in Hall. apply andb_true_iff in Hall as [Hc _].
  now apply number_char_starts.
Qed.

Lemma str_int_starts (n : Z) : starts_value (str_int n).
Proof.
  pose proof (str_int_number_chars n) as Hall.
  pose proof (str_int_literal n) as Hlit.
  destruct (str_int n) as [|c s]; [discriminate|].
  cbn in Hall. apply andb_true_iff in Hall as [Hc _].
  now apply number_char_starts.
Qed.

Lemma dumps_starts (v : value) :
  Forall float_writable (floats_of v) -> starts_value (dumps v).
Proof.
  intros Hfloats.
  destruct v as [|[]|n|f|s|items|items]; cbn [json_dumps];
    try (repeat eexists; fail).
  - apply str_int_starts.
  - apply float_token_starts. cbn in Hfloats.
    apply Forall_inv in Hfloats. exact (proj1 Hfloats).
Qed.

Lemma starts_value_app (s rest : string) :
  starts_value s -> starts_value (s ++ rest).
Proof.
  intros (c & tail & -> & H). exists c, (tail ++ rest). split; [reflexivity|exact H].
Qed.


Lemma skip_ws_starts (s : string) : starts_value s -> Json.skip_ws s = s.
Proof. intros (c & tail & -> & Hws & _). cbn. now rewrite Hws. Qed.

(** A number token is read by [parse_number]. *)
Lemma parse_value_number (fuel : nat) (tok rest : string) :
  tok <> "" -> Json.all_number_chars tok = true ->
  parse_value (S fuel) (tok ++ rest) = Json.parse_number float_parse (tok ++ rest).
Proof.
  intros Hne Hall. destruct tok as [|c tok]; [now destruct Hne|].
  cbn in Hall. apply andb_true_iff in Hall as [Hc Hall].
  destruct c as [b0 b1 b2 b3 b4 b5 b6 b7].
  destruct b0, b1, b2, b3, b4, b5, b6, b7; try discriminate Hc; reflexivity.
Qed.

Lemma parse_dumps_float (fuel : nat) (f : spec_float) (rest : string) :
  float_writable f ->
  Json.at_delimiter rest = true ->
  parse_value (S fuel) (float_repr f ++ rest) = Some (PyFloat f, rest).
Proof.
  intros [Htok Hparse] Hrest. unfold Json.is_float_token in Htok.
  apply andb_true_iff in Htok as [Htok Hlit].
  apply andb_true_iff in Htok as [Htok Hnumber].
  apply andb_true_iff in Htok as [Hne Hall].
  rewrite parse_value_number; [| |assumption].
  - unfold Json.parse_number. rewrite (span_number_token _ _ Hall Hrest).
    cbn [fst snd]. apply negb_true_iff in Hlit. rewrite Hlit, Hnumber.
    unfold Json.parse_float. now rewrite Hparse.
  - intros E. rewrite E in Hne. discriminate.
Qed.

Lemma parse_dumps_int (fuel : nat) (n : Z) (rest : string) :
  Json.at_delimiter rest = true ->
  parse_value (S fuel) (str_int n ++ rest) = Some (PyInt n, rest).
Proof.
  intros Hrest. rewrite parse_value_number.
  - now apply parse_number_int.
  - pose proof (str_int_literal n). now destruct (str_int n).
  - apply str_int_number_chars.
Qed.

Lemma parse_dumps_str (fuel : nat) (s rest : string) :
  parse_value (S fuel) (quote s ++ rest) = Some (PyStr s, rest).
Proof.
  destruct (parse_chars_quote s rest) as (tail & -> & Htail).
  cbn. now rewrite Htail.
Qed.

Lemma skip_ws_nonblank (c : ascii) (tail : string) :
  Json.is_ws c = false -> Json.skip_ws (String c tail) = String c tail.
Proof. intros H. cbn. now rewrite H. Qed.

Lemma parse_items_dumps (items : list value) :
  Forall reads_back items -> items <> [] ->
  forall fuel rest,
    2 * String.length (String.concat "," (map dumps items)) + 2 <= fuel ->
    parse_items fuel (String.concat "," (map dumps items) ++ String "]" rest)
    = Some (items, rest).
Proof.
  induction 1 as [|v vs Hv Hvs IH]; intros Hne fuel rest Hfuel;
    [now destruct Hne|].
  destruct fuel as [|fuel]; [lia|].
  destruct vs as [|v2 vs].
  - cbn [map String.concat] in *. cbn [Json.parse_items].
    rewrite (Hv fuel (String "]" rest)); [reflexivity|lia|reflexivity].
  - change (String.concat "," (map dumps (v :: v2 :: vs)))
      with (dumps v ++ String "," (String.concat "," (map dumps (v2 :: vs)))) in *.
    rewrite append_length in Hfuel. cbn [String.length] in Hfuel.
    rewrite string_append_assoc. cbn [append Json.parse_items].
    rewrite (Hv fuel); [|lia|reflexivity].
    rewrite skip_ws_nonblank by reflexivity.
    cbn [Ascii.eqb Bool.eqb andb].
    rewrite IH; [reflexivity|discriminate|lia].
Qed.

Lemma parse_members_dumps (items : list (string * value)) :
  Forall (fun kv => reads_back (snd kv)) items -> items <> [] ->
  forall fuel rest,
    2 * String.length
          (String.concat ","
             (map (fun kv => quote (fst kv) ++ ":" ++ dumps (snd kv)) items))
    + 2 <= fuel ->
    parse_members fuel
      (String.concat ","
         (map (fun kv => quote (fst kv) ++ ":" ++ dumps (snd kv)) items)
       ++ String "}" rest)
    = Some (items, rest).
Proof.
  induction 1 as [|[k v] kvs Hv Hkvs IH]; intros Hne fuel rest Hfuel;
    [now destruct Hne|].
  cbn [fst snd] in Hv.
  destruct fuel as [|fuel]; [lia|].
  destruct kvs as [|kv2 kvs].
  - cbn [map String.concat fst snd] in *.
    rewrite append_length in Hfuel. cbn [append String.length] in Hfuel.
    rewrite string_append_assoc.
    destruct (parse_chars_quote k ((":" ++ dumps v) ++ String "}" rest))
      as (tail & -> & Htail).
    cbn [Json.parse_members].
    rewrite skip_ws_nonblank by reflexivity.
    rewrite Ascii.eqb_refl, Htail. cbn [append].
    rewrite skip_ws_nonblank by reflexivity.
    cbn [Ascii.eqb Bool.eqb andb].
    rewrite (Hv fuel (String "}" rest)); [reflexivity|lia|reflexivity].
  - set (member_text := fun kv : string * value =>
                          quote (fst kv) ++ ":" ++ dumps (snd kv)) in *.
    change (String.concat "," (map member_text ((k, v) :: kv2 :: kvs)))
      with ((quote k ++ ":" ++ dumps v)
              ++ String "," (String.concat "," (map member_text (kv2 :: kvs)))) in *.
    rewrite !append_length in Hfuel. cbn [append String.length] in Hfuel.
    rewrite !string_append_assoc.
    destruct (parse_chars_quote k
                (":" ++ dumps v ++
                   String "," (String.concat "," (map member_text (kv2 :: kvs)))
                   ++ String "}" rest))
      as (tail & -> & Htail).
    cbn [Json.parse_members].
    rewrite skip_ws_nonblank by reflexivity.
    rewrite Ascii.eqb_refl, Htail. cbn [append].
    rewrite skip_ws_nonblank by reflexivity.
    cbn [Ascii.eqb Bool.eqb andb].
    rewrite (Hv fuel); [|lia|reflexivity].
    rewrite skip_ws_nonblank by reflexivity.
    cbn [Ascii.eqb Bool.eqb andb].
    rewrite IH; [reflexivity|discriminate|lia].
Qed.

Lemma parse_value_array (fuel : nat) (text : string) :
  starts_value text ->
  parse_value (S fuel) (String "[" text)
  = match parse_items fuel text with
    | Some (items, rest) => Some (PyList items, rest)
    | None => None
    end.
Proof.
  intros (c & tail & -> & Hws & Hclose & _).
  change (parse_value (S fuel) (String "[" (String c tail)))
    with (match Json.skip_ws (String c tail) with
          | String c' rest' =>
              if Ascii.eqb c' "]" then Some (PyList [], rest')
              else match parse_items fuel (String c tail) with
                   | Some (items, rest'') => Some (PyList items, rest'')
                   | None => None
                   end
          | "" => None
          end).
  now rewrite (skip_ws_nonblank c tail Hws), Hclose.
Qed.

Lemma parse_value_object (fuel : nat) (text : string) :
  starts_value text ->
  parse_value (S fuel) (String "{" text)
  = match parse_members fuel text with
    | Some (items, rest) => Some (PyDict items, rest)
    | None => None
    end.
Proof.
  intros (c & tail & -> & Hws & _ & Hclose).
  change (parse_value (S fuel) (String "{" (String c tail)))
    with (match Json.skip_ws (String c tail) with
          | String c' rest' =>
              if Ascii.eqb c' "}" then Some (PyDict [], rest')
              else match parse_members fuel (String c tail) with
                   | Some (items, rest'') => Some (PyDict items, rest'')
                   | None => None
                   end
          | "" => None
          end).
  now rewrite (skip_ws_nonblank c tail Hws), Hclose.
Qed.

Lemma concat_starts (texts : list string) (first : string) :
  starts_value first -> starts_value (String.concat "," (first :: texts)).
Proof.
  intros H. destruct texts as [|second texts]; [exact H|].
  cbn [String.concat]. now apply starts_value_app.
Qed.

Lemma quote_starts (s : string) : starts_value (quote s).
Proof. repeat eexists. Qed.

(** A value whose floats are written as JSON is read back from its
    text. *)
Lemma parse_dumps (v : value) :
  Forall float_writable (floats_of v) -> reads_back v.
Proof.
  induction v as [|b|n|f|s|items IH|items IH] using value_ind';
    intros Hfloats fuel rest Hfuel Hrest; (destruct fuel as [|fuel]; [lia|]).
  - reflexivity.
  - destruct b; reflexivity.
  - now apply parse_dumps_int.
  - apply parse_dumps_float; [|assumption].
    cbn in Hfloats. now apply Forall_inv in Hfloats.
  - apply parse_dumps_str.
  - cbn [floats_of] in Hfloats. apply Forall_flat_map in Hfloats.
    assert (Hread : Forall reads_back items).
    { rewrite Forall_forall in *. intros x Hx. apply (IH x Hx), (Hfloats x Hx). }
    rewrite dumps_list in *. destruct items as [|v vs]; [reflexivity|].
    assert (Hstart : starts_value (String.concat "," (map dumps (v :: vs)))).
    { cbn [map]. apply concat_starts, dumps_starts.
      now apply Forall_inv in Hfloats. }
    pose proof (parse_items_dumps (v :: vs) Hread) as Hitems.
    revert Hfuel Hstart Hitems.
    generalize (String.concat "," (map dumps (v :: vs))). intros text.
    rewrite !append_length, !string_append_assoc. cbn [append String.length].
    intros Hfuel Hstart Hitems.
    rewrite parse_value_array by now apply starts_value_app.
    rewrite Hitems; [reflexivity|discriminate|lia].
  - cbn [floats_of] in Hfloats. apply Forall_flat_map in Hfloats.
    assert (Hread : Forall (fun kv => reads_back (snd kv)) items).
    { rewrite Forall_forall in *. intros x Hx. apply (IH x Hx), (Hfloats x Hx). }
    rewrite dumps_dict in *. destruct items as [|kv kvs]; [reflexivity|].
    assert (Hstart :
              starts_value
                (String.concat ","
                   (map (fun kv => quote (fst kv) ++ ":" ++ dumps (snd kv))
                        (kv :: kvs)))).
    { cbn [map]. apply concat_starts, starts_value_app, quote_starts. }
    pose proof (parse_members_dumps (kv :: kvs) Hread) as Hitems.
    revert Hfuel Hstart Hitems.
    generalize (String.concat ","
                  (map (fun kv => quote (fst kv) ++ ":" ++ dumps (snd kv))
                       (kv :: kvs))).
    intros text.
    rewrite !append_length, !string_append_assoc. cbn [append String.length].
    intros Hfuel Hstart Hitems.
    rewrite parse_value_object by now apply starts_value_app.
    rewrite Hitems; [reflexivity|discriminate|lia].
Qed.

(** Round trip: the text of a value whose floats are written as JSON is
    valid JSON and reads back as the value. *)
Lemma json_loads_dumps (v : value) :
  Forall float_writable (floats_of v) ->
  Json.json_loads float_parse (dumps v) = Some v.
Proof.
  intros Hfloats. unfold Json.json_loads.
  pose proof (parse_dumps v Hfloats (2 * String.length (dumps v) + 2) "") as H.
  assert (E : dumps v ++ "" = dumps v).
  { clear. induction (dumps v) as [|c s IH]; cbn; [reflexivity | now rewrite IH]. }
  rewrite E in H. rewrite H; [reflexivity|lia|reflexivity].
Qed.

Variable json_body : Event -> result value.


End RoundTrip.

(* ================================================================== *)
(** * The model on sample requests *)

Section Samples.

Import Sample.

(** C1, counterexample.  [POST /products] with the body [[1]]: the body
    parses to a list, so [body.get] raises [AttributeError] inside the
    [try] block.  The response is 400, not 500, and its body carries the
    exception's text. *)
Lemma create_product_echoes_exception_text :
  create_product_try json_body zeros (post array_body)
  = Raise (PyError "AttributeError" list_has_no_get)
  /\ Envelope.statusCode (handle zeros (post array_body)) = 400%Z
  /\ Envelope.statusCode (handle zeros (post array_body)) <> 500%Z
  /\ contains (Envelope.body (handle zeros (post array_body))) list_has_no_get.
Proof.
  split; [vm_compute; reflexivity|].
  split; [vm_compute; reflexivity|].
  split; [vm_compute; discriminate|].
  exists ("{" ++ member "message" (String dquote unexpected_prefix)),
         (String dquote "}").
  vm_compute. reflexivity.
Qed.

(** C1, witness: the same request, through the amended statement. *)
Lemma unexpected_failure_witness :
  create_product_try json_body zeros (post array_body)
  = Raise (PyError "AttributeError" list_has_no_get)
  /\ handle zeros (post array_body)
     = envelope float_repr 400
         (error_payload (unexpected_prefix ++ list_has_no_get)).
Proof.
  split; [vm_compute; reflexivity|].
  apply (proj2 (unexpected_failure_in_create_product_is_echoed_as_400
                  float_repr json_body)
               zeros (post array_body)
               (PyError "AttributeError" list_has_no_get)).
  - reflexivity.
  - reflexivity.
  - vm_compute; reflexivity.
  - discriminate.
Defined.

(** C2, at the failing input.  Two successful [POST /products] requests,
    with different bodies and different random bytes, get the same id:
    the id is "prod_" followed by the length of the hexadecimal text of
    four bytes, which is always 8. *)
Theorem created_product_ids_collide :
  urandom zeros 4 <> urandom ones 4
  /\ Envelope.statusCode (handle zeros (post monitor_body)) = 201%Z
  /\ Envelope.statusCode (handle ones (post webcam_body)) = 201%Z
  /\ created_id (create_product json_body zeros (post monitor_body))
     = PyStr "prod_8"
  /\ created_id (create_product json_body ones (post webcam_body))
     = PyStr "prod_8".
Proof.
  split; [vm_compute; discriminate|].
  repeat split; vm_compute; reflexivity.
Qed.

(** C3, counterexample.  [POST /products] with the name 5: the body has
    no string for ["name"], and the response is 201. *)
Lemma non_string_name_is_accepted :
  json_body (post numeric_name_body)
  = Return (PyDict [("name", PyInt 5); ("price", PyInt 300)])
  /\ (forall s, dict_get [("name", PyInt 5); ("price", PyInt 300)] "name"
                <> PyStr s)
  /\ Envelope.statusCode (handle zeros (post numeric_name_body)) = 201%Z
  /\ Envelope.statusCode (handle zeros (post numeric_name_body)) <> 400%Z.
Proof.
  split; [vm_compute; reflexivity|].
  split; [intros s; cbn; discriminate|].
  split; [vm_compute; reflexivity | vm_compute; discriminate].
Qed.

(** C3, witness: a valid body is answered 201, a body without a name
    400 with the fixed message. *)
Lemma create_product_validation_witness :
  json_body (post monitor_body)
  = Return (PyDict [("name", PyStr "Monitor"); ("price", PyInt 300)])
  /\ handle zeros (post monitor_body)
     = envelope float_repr 201 (created_payload (PyStr "Monitor") (PyInt 300))
  /\ json_body (post missing_name_body) = Return (PyDict [("price", PyInt 300)])
  /\ handle zeros (post missing_name_body)
     = envelope float_repr 400 (error_payload invalid_product_message).
Proof.
  split; [vm_compute; reflexivity|]. split.
  - apply (proj2 (proj2 (proj1 (create_product_validation
                                  float_repr json_body zeros (post monitor_body)
                                  eq_refl eq_refl)
                               [("name", PyStr "Monitor"); ("price", PyInt 300)]
                               ltac:(vm_compute; reflexivity)))
                 "Monitor" (PyInt 300)).
    + reflexivity.
    + discriminate.
    + reflexivity.
    + left. exists 300%Z. reflexivity.
  - split; [vm_compute; reflexivity|].
    apply (proj1 (proj1 (create_product_validation
                           float_repr json_body zeros (post missing_name_body)
                           eq_refl eq_refl)
                        [("price", PyInt 300)]
                        ltac:(vm_compute; reflexivity))).
    left. reflexivity.
Defined.

(** C4, witness: a body the reader refuses is answered 400. *)
Lemma unparsable_body_witness :
  json_loads malformed_body = None
  /\ handle zeros (post malformed_body)
     = envelope float_repr 400 (error_payload invalid_json_message).
Proof.
  split; [vm_compute; reflexivity|].
  apply (proj2 (unparsable_body_is_bad_request
                  float_repr zeros (post malformed_body) eq_refl eq_refl)
               json_loads malformed_body).
  - reflexivity.
  - discriminate.
  - vm_compute; reflexivity.
Defined.


(** C6, witness. *)
Lemma list_products_witness :
  exists products,
    handle zeros (request "GET" "/products" None)
    = envelope float_repr 200 (PyDict [("products", PyList products)])
    /\ List.length products = 3.
Proof.
  destruct (list_products_response
              float_repr json_body zeros (request "GET" "/products" None)
              eq_refl eq_refl)
    as (products & Hresp & _ & Hlen & _).
  exists products. split; assumption.
Defined.

(** C7, witness: [DELETE /products] matches the template of two routes
    and the method of none. *)
Lemma unmatched_request_witness :
  Router.resolve app "DELETE" "/products" = None
  /\ Router.match_path [Router.Literal "products"] "/products" = Some []
  /\ handle zeros (request "DELETE" "/products" None)
     = envelope float_repr 404 (error_payload not_found_message).
Proof.
  split; [reflexivity|]. split; [reflexivity|].
  apply (proj1 (unmatched_request_is_not_found
                  float_repr json_body zeros
                  (request "DELETE" "/products" None))).
  reflexivity.
Defined.

(** C8, witness: [GET /products], then [POST /products], then
    [GET /products] again.  The third registration is refused, although
    the route registered last is another one. *)
Lemma duplicate_registration_witness :
  Router.register (H := Handler) [] "GET" "/products" ListProducts
  = inr [{| Router.method := "GET";
            Router.template := [Router.Literal "products"];
            Router.handler := ListProducts |}]
  /\ Router.register_all
       [{| Router.method := "GET";
           Router.template := [Router.Literal "products"];
           Router.handler := ListProducts |}]
       [("POST", "/products", CreateProduct)]
     = inr [{| Router.method := "GET";
               Router.template := [Router.Literal "products"];
               Router.handler := ListProducts |};
            {| Router.method := "POST";
               Router.template := [Router.Literal "products"];
               Router.handler := CreateProduct |}]
  /\ Router.register
       [{| Router.method := "GET";
           Router.template := [Router.Literal "products"];
           Router.handler := ListProducts |};
        {| Router.method := "POST";
           Router.template := [Router.Literal "products"];
           Router.handler := CreateProduct |}]
       "GET" "/products" GetProduct
     = inl (Router.DuplicateRoute "GET" "/products").
Proof.
  split; [reflexivity|]. split; [reflexivity|].
  destruct (duplicate_registration_is_refused
              Handler [] "GET" "/products" ListProducts) as [_ Hkept].
  destruct (Hkept _ eq_refl) as (_ & _ & Hlater).
  destruct (Hlater [("POST", "/products", CreateProduct)] _ eq_refl)
    as (Hrefused & _).
  exact (Hrefused GetProduct).
Defined.

(** C10, witness. *)
Lemma boolean_price_witness :
  json_body (post boolean_price_body)
  = Return (PyDict [("name", PyStr "Monitor"); ("price", PyBool true)])
  /\ handle zeros (post boolean_price_body)
     = envelope float_repr 201
         (created_payload (PyStr "Monitor") (PyBool true)).
Proof.
  split; [vm_compute; reflexivity|].
  apply (boolean_price_is_accepted
           float_repr json_body zeros (post boolean_price_body)
           [("name", PyStr "Monitor"); ("price", PyBool true)] "Monitor" true).
  - reflexivity.
  - reflexivity.
  - vm_compute; reflexivity.
  - reflexivity.
  - discriminate.
  - reflexivity.
Defined.

(** The binary64 model on some numbers, as Python reads and writes
    them. *)
Lemma binary64_samples :
  float_parse "1e999" = Some (S754_infinity false)
  /\ float_parse "NaN" = None
  /\ float_parse "0.1" = Some (S754_finite false 7205759403792794 (-56))
  /\ float_repr (S754_finite false 7205759403792794 (-56)) = "0.1"
  /\ float_parse "300.5" = Some (S754_finite false 5286451906347008 (-44))
  /\ float_repr (S754_finite false 5286451906347008 (-44)) = "300.5"
  /\ float_parse "1e22" = Some (S754_finite false 4768371582031250 (21))
  /\ float_repr (S754_finite false 4768371582031250 (21)) = "1e+22"
  /\ float_parse "2.5e-5" = Some (S754_finite false 7378697629483821 (-68))
  /\ float_repr (S754_finite false 7378697629483821 (-68)) = "2.5e-05"
  /\ float_parse "-0.001" = Some (S754_finite true 4611686018427388 (-62))
  /\ float_repr (S754_finite true 4611686018427388 (-62)) = "-0.001"
  /\ float_parse "1E3" = Some (S754_finite false 8796093022208000 (-43))
  /\ float_repr (S754_finite false 8796093022208000 (-43)) = "1000.0".
Proof. repeat split; vm_compute; reflexivity. Qed.

(** The binary64 floats that are written as JSON are numbers: the text of
    a NaN or of an infinity is no float token. *)
Lemma non_numbers_are_not_writable (f : spec_float) :
  float_writable float_repr float_parse f ->
  exists sign, f = S754_zero sign \/ exists m e, f = S754_finite sign m e.
Proof.
  intros [Htoken _]. destruct f as [sign|sign| |sign m e].
  - exists sign. now left.
  - destruct sign; discriminate Htoken.
  - discriminate Htoken.
  - exists sign. right. now exists m, e.
Qed.



End Samples.

(* ================================================================== *)
(** * Further properties of the handlers *)

(** The products [list_products] returns. *)
Definition listed_products : list value :=
  match list_products with
  | Return r =>
      match field (payload_of r) "products" with
      | PyList products => products
      | _ => []
      end
  | Raise _ => []
  end.

(** The ids of the listed products. *)
Definition listed_ids : list value :=
  map (fun p => field p "id") listed_products.

(** The message of [get_product]'s [NotFoundError]. *)
Definition not_found_text (product_id : string) : string :=
  "Product with ID '" ++ product_id ++ "' not found.".

Module MoreSamples.

(** The monitor of [Sample.monitor_body], members in the other order and
    with a member the handler does not ask for. *)
Definition monitor_with_colour_body : string :=
  "{" ++ member "colour" (quote "black") ++ ","
      ++ member "price" "300" ++ ","
      ++ member "name" (quote "Monitor") ++ "}".

(** A request that differs from [Sample.post Sample.monitor_body] in
    method, path and headers, with the same body. *)
Definition monitor_elsewhere : Event :=
  {| httpMethod := "PUT";
     path := "/elsewhere";
     headers := [("X-Trace", "abc")];
     body := Some Sample.monitor_body |}.

End MoreSamples.

(** X1.  [create_product] has two outcomes only: it returns, with status
    201, a message and a product with the fields [id], [name] and [price]
    whose name is truthy and whose price is an [int], [float] or [bool];
    or it raises [BadRequestError].  No other exception leaves it, and it
    returns no other status. *)
Theorem create_product_returns_201_or_raises_bad_request :
  forall (json_body : Event -> result value) (os : OsRandom) (event : Event),
    (exists id name price,
        create_product json_body os event
        = Return (WithStatus
                    (PyDict [("message", PyStr "Product created successfully");
                             ("product", PyDict [("id", PyStr id);
                                                 ("name", name);
                                                 ("price", price)])])
                    201)
        /\ truthy name = true
        /\ isinstance_int_float price = true)
    \/ (exists msg, create_product json_body os event = Raise (BadRequestError msg)).
Proof.
  intros json_body os event. unfold create_product, create_product_try.
  destruct (json_body event) as [b|e]; cbn [bind].
  - destruct b; cbn [py_get bind]; try (right; eexists; reflexivity).
    destruct (truthy (dict_get items "name")) eqn:Hname; cbn [negb orb];
      [|right; eexists; reflexivity].
    destruct (isinstance_int_float (dict_get items "price")) eqn:Hprice;
      cbn [negb]; [|right; eexists; reflexivity].
    left. do 3 eexists. split; [reflexivity|]. split; assumption.
  - right. destruct e; eexists; reflexivity.
Qed.

(** X2.  The outcome of [create_product] depends on the parsed body
    alone: two requests with the same parsed body get the same outcome,
    whatever their method, path and headers and whatever bytes the random
    source yields. *)
Theorem create_product_depends_on_the_body_only :
  forall (json_body : Event -> result value) (os1 os2 : OsRandom)
         (event1 event2 : Event),
    json_body event1 = json_body event2 ->
    create_product json_body os1 event1 = create_product json_body os2 event2.
Proof.
  intros json_body os1 os2 event1 event2 Hbody.
  unfold create_product, create_product_try.
  rewrite !new_product_id_constant, Hbody. reflexivity.
Qed.

(** X2, witness: the monitor, posted to [/products] and put elsewhere,
    with different random bytes. *)
Lemma create_product_depends_on_the_body_only_witness :
  Sample.post Sample.monitor_body <> MoreSamples.monitor_elsewhere
  /\ urandom Sample.zeros 4 <> urandom Sample.ones 4
  /\ create_product Sample.json_body Sample.zeros (Sample.post Sample.monitor_body)
     = create_product Sample.json_body Sample.ones MoreSamples.monitor_elsewhere.
Proof.
  split; [discriminate|]. split; [vm_compute; discriminate|].
  apply (create_product_depends_on_the_body_only
           Sample.json_body Sample.zeros Sample.ones
           (Sample.post Sample.monitor_body) MoreSamples.monitor_elsewhere).
  vm_compute. reflexivity.
Defined.

(** X3.  Of a body that is an object [create_product] reads the members
    ["name"] and ["price"] and nothing else: two bodies that agree on
    both get the same outcome, whatever other members they have and in
    whatever order. *)
Theorem create_product_reads_name_and_price_only :
  forall (json_body : Event -> result value) (os1 os2 : OsRandom)
         (event1 event2 : Event) (d1 d2 : list (string * value)),
    json_body event1 = Return (PyDict d1) ->
    json_body event2 = Return (PyDict d2) ->
    dict_get d1 "name" = dict_get d2 "name" ->
    dict_get d1 "price" = dict_get d2 "price" ->
    create_product json_body os1 event1 = create_product json_body os2 event2.
Proof.
  intros json_body os1 os2 event1 event2 d1 d2 H1 H2 Hname Hprice.
  rewrite (create_product_object json_body os1 event1 d1 H1),
          (create_product_object json_body os2 event2 d2 H2), Hname, Hprice.
  reflexivity.
Qed.

(** X3, witness: the monitor with and without a colour. *)
Lemma create_product_reads_name_and_price_only_witness :
  Sample.json_body (Sample.post MoreSamples.monitor_with_colour_body)
  = Return (PyDict [("colour", PyStr "black");
                    ("price", PyInt 300);
                    ("name", PyStr "Monitor")])
  /\ create_product Sample.json_body Sample.zeros
       (Sample.post Sample.monitor_body)
     = create_product Sample.json_body Sample.ones
         (Sample.post MoreSamples.monitor_with_colour_body).
Proof.
  split; [vm_compute; reflexivity|].
  apply (create_product_reads_name_and_price_only
           Sample.json_body Sample.zeros Sample.ones
           (Sample.post Sample.monitor_body)
           (Sample.post MoreSamples.monitor_with_colour_body)
           [("name", PyStr "Monitor"); ("price", PyInt 300)]
           [("colour", PyStr "black"); ("price", PyInt 300);
            ("name", PyStr "Monitor")]).
  - vm_compute; reflexivity.
  - vm_compute; reflexivity.
  - reflexivity.
  - reflexivity.
Defined.

(** X4.  A product that [create_product] has created is not stored: its
    id is none of the listed ids, and [get_product] of that id raises
    [NotFoundError]. *)
Theorem created_product_is_not_stored :
  forall (json_body : Event -> result value) (os : OsRandom) (event : Event)
         (r : HandlerReturn),
    create_product json_body os event = Return r ->
    exists id,
      created_id (Return r) = PyStr id
      /\ ~ In (PyStr id) listed_ids
      /\ get_product id = Raise (NotFoundError (not_found_text id)).
Proof.
  intros json_body os event r Hcreated. exists "prod_8".
  split; [exact (created_id_is_constant json_body os event r Hcreated)|].
  split; [|reflexivity].
  cbn. intros [E|[E|[E|[]]]]; discriminate E.
Qed.

(** X4, witness: the monitor. *)
Lemma created_product_is_not_stored_witness :
  exists id,
    created_id (create_product Sample.json_body Sample.zeros
                  (Sample.post Sample.monitor_body)) = PyStr id
    /\ ~ In (PyStr id) listed_ids
    /\ get_product id = Raise (NotFoundError (not_found_text id)).
Proof.
  apply (created_product_is_not_stored
           Sample.json_body Sample.zeros (Sample.post Sample.monitor_body)
           (WithStatus (created_payload (PyStr "Monitor") (PyInt 300)) 201)).
  vm_compute. reflexivity.
Defined.

(** X5.  [get_product] and [list_products] agree: [get_product] returns
    a product for an id exactly when that product is listed and carries
    that id; what it returns is the listed product, unchanged, with no
    status of its own. *)
Theorem get_product_returns_the_listed_product :
  forall (product_id : string) (r : HandlerReturn),
    get_product product_id = Return r <->
    exists p,
      r = Bare p /\ In p listed_products /\ field p "id" = PyStr product_id.
Proof.
  intros product_id r. split.
  - unfold get_product.
    destruct (in_dec string_dec product_id (map fst products_db)) as [Hin|Hout].
    + cbn in Hin.
      destruct Hin as [<-|[<-|[<-|[]]]]; cbn; intros E; injection E as <-;
        eexists; (split; [reflexivity|]); (split; [|reflexivity]);
        cbn; auto 6.
    + rewrite (products_db_miss product_id Hout). cbn. discriminate.
  - intros (p & -> & Hin & Hid). cbn in Hin.
    destruct Hin as [<-|[<-|[<-|[]]]]; cbn in Hid; injection Hid as <-;
      reflexivity.
Qed.

(** X5, witness: the mouse, in both directions. *)
Lemma get_product_returns_the_listed_product_witness :
  get_product "prod2" = Return (Bare (product "prod2" "Mouse" 25))
  /\ exists p,
       Bare (product "prod2" "Mouse" 25) = Bare p
       /\ In p listed_products
       /\ field p "id" = PyStr "prod2".
Proof.
  split.
  - apply (proj2 (get_product_returns_the_listed_product
                    "prod2" (Bare (product "prod2" "Mouse" 25)))).
    exists (product "prod2" "Mouse" 25).
    split; [reflexivity|]. split; [cbn; auto 6 | reflexivity].
  - apply (proj1 (get_product_returns_the_listed_product
                    "prod2" (Bare (product "prod2" "Mouse" 25)))).
    reflexivity.
Defined.

(** X6.  [get_product] raises nothing but [NotFoundError], raises it
    exactly for the ids that no listed product carries (the empty id and
    ids in another case among them), and its message quotes the id as it
    was given. *)
Theorem get_product_raises_not_found_only :
  forall (product_id : string),
    (forall e, get_product product_id = Raise e ->
               e = NotFoundError (not_found_text product_id))
    /\ (get_product product_id = Raise (NotFoundError (not_found_text product_id))
        <-> ~ In (PyStr product_id) listed_ids)
    /\ contains (not_found_text product_id) product_id.
Proof.
  intros product_id.
  assert (Hlisted : In (PyStr product_id) listed_ids
                    <-> In product_id (map fst products_db)).
  { cbn. split; intros [E|[E|[E|[]]]];
      try (injection E as <-); try (rewrite <- E); auto 6. }
  unfold get_product. split; [|split].
  - intros e. destruct (negb (truthy (dict_get products_db product_id)));
      intros E; [now injection E as <- | discriminate E].
  - rewrite Hlisted.
    destruct (in_dec string_dec product_id (map fst products_db)) as [Hin|Hout].
    + split; [|tauto]. cbn in Hin.
      destruct Hin as [<-|[<-|[<-|[]]]]; cbn; discriminate.
    + rewrite (products_db_miss product_id Hout).
      split; [intros _; exact Hout | intros _; reflexivity].
  - apply contains_middle.
Qed.

(** X6, witness: an id in capitals and the empty id are not found. *)
Lemma get_product_raises_not_found_only_witness :
  get_product "PROD1" = Raise (NotFoundError (not_found_text "PROD1"))
  /\ get_product "" = Raise (NotFoundError (not_found_text "")).
Proof.
  split.
  - apply (proj2 (proj1 (proj2 (get_product_raises_not_found_only "PROD1")))).
    cbn. intros [E|[E|[E|[]]]]; discriminate E.
  - apply (proj2 (proj1 (proj2 (get_product_raises_not_found_only "")))).
    cbn. intros [E|[E|[E|[]]]]; discriminate E.
Defined.

(** X7.  When the parsed body is not an object, whether [None], a
    boolean, a number, a string or a list, [body.get] fails and
    [create_product] raises [BadRequestError] with a message that names
    the body's Python type: "An unexpected error occurred: 'T' object has
    no attribute 'get'". *)
Theorem non_object_body_is_reported_by_its_type :
  forall (json_body : Event -> result value) (os : OsRandom) (event : Event)
         (v : value),
    json_body event = Return v ->
    (forall d, v <> PyDict d) ->
    create_product json_body os event
    = Raise (BadRequestError
               (unexpected_prefix
                  ++ "'" ++ type_name v ++ "' object has no attribute 'get'")).
Proof.
  intros json_body os event v Hbody Hnot.
  unfold create_product, create_product_try. rewrite Hbody.
  destruct v; try reflexivity. now destruct (Hnot items).
Qed.

(** X7, witness: the body [[1]] is a list. *)
Lemma non_object_body_is_reported_by_its_type_witness :
  Sample.json_body (Sample.post Sample.array_body) = Return (PyList [PyInt 1])
  /\ create_product Sample.json_body Sample.zeros (Sample.post Sample.array_body)
     = Raise (BadRequestError
                (unexpected_prefix
                   ++ "'" ++ "list" ++ "' object has no attribute 'get'")).
Proof.
  split; [vm_compute; reflexivity|].
  apply (non_object_body_is_reported_by_its_type
           Sample.json_body Sample.zeros (Sample.post Sample.array_body)
           (PyList [PyInt 1])).
  - vm_compute; reflexivity.
  - discriminate.
Defined.

(** X8.  Any two products that [create_product] creates have the same
    id, [prod_8], whatever the requests and whatever bytes the random
    source yields for each. *)
Theorem any_two_created_products_share_their_id :
  forall (json_body : Event -> result value) (os1 os2 : OsRandom)
         (event1 event2 : Event) (r1 r2 : HandlerReturn),
    create_product json_body os1 event1 = Return r1 ->
    create_product json_body os2 event2 = Return r2 ->
    created_id (Return r1) = created_id (Return r2)
    /\ created_id (Return r1) = PyStr "prod_8".
Proof.
  intros json_body os1 os2 event1 event2 r1 r2 H1 H2.
  rewrite (created_id_is_constant json_body os1 event1 r1 H1),
          (created_id_is_constant json_body os2 event2 r2 H2).
  split; reflexivity.
Qed.

(** X8, witness: the monitor and the webcam. *)
Lemma any_two_created_products_share_their_id_witness :
  created_id (Return (WithStatus (created_payload (PyStr "Monitor") (PyInt 300)) 201))
  = created_id (Return (WithStatus (created_payload (PyStr "Webcam") (PyInt 45)) 201))
  /\ created_id (Return (WithStatus (created_payload (PyStr "Monitor") (PyInt 300)) 201))
     = PyStr "prod_8".
Proof.
  apply (any_two_created_products_share_their_id
           Sample.json_body Sample.zeros Sample.ones
           (Sample.post Sample.monitor_body) (Sample.post Sample.webcam_body)).
  - vm_compute; reflexivity.
  - vm_compute; reflexivity.
Defined.

(** X9.  The messages of [create_product]'s [BadRequestError] are of four
    kinds and no other: the fixed validation message, for an object
    whose name is falsy or whose price is no number; the type report, for
    a parsed body that is no object; the message of a [BadRequestError]
    that the body accessor raised, passed on as it is; and "An unexpected
    error occurred: " followed by the text of any other exception the
    accessor raised. *)
Theorem create_product_failure_messages :
  forall (json_body : Event -> result value) (os : OsRandom) (event : Event)
         (msg : string),
    create_product json_body os event = Raise (BadRequestError msg) ->
    (exists d,
        json_body event = Return (PyDict d)
        /\ (truthy (dict_get d "name") = false
            \/ isinstance_int_float (dict_get d "price") = false)
        /\ msg = invalid_product_message)
    \/ (exists v,
           json_body event = Return v
           /\ (forall d, v <> PyDict d)
           /\ msg = unexpected_prefix
                      ++ "'" ++ type_name v ++ "' object has no attribute 'get'")
    \/ json_body event = Raise (BadRequestError msg)
    \/ (exists e,
           json_body event = Raise e
           /\ (forall m, e <> BadRequestError m)
           /\ msg = unexpected_prefix ++ str_exn e).
Proof.
  intros json_body os event msg. unfold create_product, create_product_try.
  destruct (json_body event) as [b|e]; cbn [bind].
  - destruct b; cbn [py_get bind];
      try (intros E; injection E as <-; right; left; eexists;
           split; [reflexivity|]; split; [discriminate | reflexivity]).
    destruct (truthy (dict_get items "name")) eqn:Hname; cbn [negb orb].
    + destruct (isinstance_int_float (dict_get items "price")) eqn:Hprice;
        cbn [negb]; [discriminate|].
      intros E; injection E as <-. left. exists items. auto.
    + intros E; injection E as <-. left. exists items. auto.
  - destruct e as [m|m|m|cls m]; intros E; injection E as <-.
    + right; right; left. reflexivity.
    + right; right; right. eexists. split; [reflexivity|].
      split; [discriminate | reflexivity].
    + right; right; right. eexists. split; [reflexivity|].
      split; [discriminate | reflexivity].
    + right; right; right. eexists. split; [reflexivity|].
      split; [discriminate | reflexivity].
Qed.

(** X9, witness: the body without a name gets the validation message. *)
Lemma create_product_failure_messages_witness :
  create_product Sample.json_body Sample.zeros
    (Sample.post Sample.missing_name_body)
  = Raise (BadRequestError invalid_product_message)
  /\ ((exists d,
          Sample.json_body (Sample.post Sample.missing_name_body)
          = Return (PyDict d)
          /\ (truthy (dict_get d "name") = false
              \/ isinstance_int_float (dict_get d "price") = false)
          /\ invalid_product_message = invalid_product_message)
      \/ (exists v,
             Sample.json_body (Sample.post Sample.missing_name_body) = Return v
             /\ (forall d, v <> PyDict d)
             /\ invalid_product_message
                = unexpected_prefix
                    ++ "'" ++ type_name v ++ "' object has no attribute 'get'")
      \/ Sample.json_body (Sample.post Sample.missing_name_body)
         = Raise (BadRequestError invalid_product_message)
      \/ (exists e,
             Sample.json_body (Sample.post Sample.missing_name_body) = Raise e
             /\ (forall m, e <> BadRequestError m)
             /\ invalid_product_message = unexpected_prefix ++ str_exn e)).
Proof.
  split; [vm_compute; reflexivity|].
  apply (create_product_failure_messages
           Sample.json_body Sample.zeros (Sample.post Sample.missing_name_body)
           invalid_product_message).
  vm_compute. reflexivity.
Defined.
